(** * ImageAnnotator: the image viewer with numbered pins and comments

    A shallow embedding of [src/components/ImageAnnotator.tsx].  The source
    file holds two revisions of the component; the second one (popup editor,
    drag detection wired to the image container) is embedded in [Rev2], the
    first one (modal editor) in [Rev1].

    - JavaScript numbers that hold coordinates are binary64 floats
      ([PrimFloat.float]); pin ids ([annotations.length + 1]) are naturals.
    - A [Date] is its number of milliseconds since the epoch.
    - React state variables and refs are the fields of one record; a handler
      is a function on that record.  A handler reads the values of the render
      it was created in, and all its state updates are applied together when it
      returns, so the arguments of the setters are computed from the state the
      handler starts in.
    - [new Date()] reads the field [clock]; [setTimeout] adds an entry to the
      field [timers]; time passes through the event [Elapse]. *)

From Stdlib Require Import PrimFloat.
From stdpp Require Import base list strings numbers.

Local Open Scope string_scope.
Local Open Scope list_scope.
Local Open Scope nat_scope.

(** ** Data model *)

Definition Date := N.

(** [interface Annotation { id; x; y; text; timestamp }] *)
Module Annotation.
Record t := mk {
  id : nat;
  x : float;
  y : float;
  text : string;
  timestamp : Date
}.
End Annotation.

(** The fields of a [React.MouseEvent] the handlers read. *)
Module MouseEvent.
Record t := mk { clientX : float; clientY : float }.
End MouseEvent.

(** What [getBoundingClientRect()] returns, as far as it is read. *)
Module DOMRect.
Record t := mk { left : float; top : float; width : float; height : float }.
End DOMRect.

(** The object literal [{ x, y }] of the mouse position and popup position. *)
Module Point.
Record t := mk { x : float; y : float }.
End Point.

(** JavaScript truthiness of a string: every string but the empty one. *)
Definition truthy (s : string) : bool :=
  match s with
  | EmptyString => false
  | String _ _ => true
  end.

(** [((p - origin) / extent) * 100] *)
Definition percent (p origin extent : float) : float :=
  (((p - origin) / extent) * 100)%float.

(** [Math.abs(a - b) > 5] *)
Definition moved_beyond (a b : float) : bool :=
  (5 <? abs (a - b))%float.

(** [{ ...ann, text: commentText, timestamp: ann.text ? ann.timestamp : new Date() }] *)
Definition with_comment (commentText : string) (now : Date) (ann : Annotation.t)
  : Annotation.t :=
  Annotation.mk (Annotation.id ann) (Annotation.x ann) (Annotation.y ann)
    commentText
    (if truthy (Annotation.text ann) then Annotation.timestamp ann else now).

(** [annotations.map(ann => ann.id === selectedAnnotation.id ? {...} : ann)] *)
Definition save_comment (sel : Annotation.t) (commentText : string) (now : Date)
    (l : list Annotation.t) : list Annotation.t :=
  map (fun ann =>
         if Annotation.id ann =? Annotation.id sel
         then with_comment commentText now ann
         else ann) l.

(** [annotations.filter(ann => ann.id !== selectedAnnotation.id)] *)
Definition remove_id (sel : Annotation.t) (l : list Annotation.t)
  : list Annotation.t :=
  List.filter (fun ann => negb (Annotation.id ann =? Annotation.id sel)) l.

(** [annotations.filter(a => a.text)] *)
Definition with_text (l : list Annotation.t) : list Annotation.t :=
  List.filter (fun a => truthy (Annotation.text a)) l.

(** The object literal of a new pin:
    [{ id: annotations.length + 1, x, y, text: '', timestamp: new Date() }]
    with [x] and [y] computed from the click and the image rectangle. *)
Definition newAnnotation (count : nat) (e : MouseEvent.t) (rect : DOMRect.t)
    (now : Date) : Annotation.t :=
  Annotation.mk (count + 1)
    (percent (MouseEvent.clientX e) (DOMRect.left rect) (DOMRect.width rect))
    (percent (MouseEvent.clientY e) (DOMRect.top rect) (DOMRect.height rect))
    ""
    now.

(** The delay of the [setTimeout] in [handleListClick], in milliseconds. *)
Definition HIGHLIGHT_DELAY : N := 2000.

(** The pin [a'] is the pin [a] up to its comment: same id, same place. *)
Definition same_place (a a' : Annotation.t) : Prop :=
  Annotation.id a' = Annotation.id a
  /\ Annotation.x a' = Annotation.x a
  /\ Annotation.y a' = Annotation.y a.

(** The store [l'] keeps the pins of [l]: it is made of some of the pins of
    [l], in the order they have in [l], each with the id and the place it
    had, followed by the pins that are new. *)
Definition keeps_pins (l l' : list Annotation.t) : Prop :=
  exists kept kept' added : list Annotation.t,
    kept `sublist_of` l
    /\ Forall2 same_place kept kept'
    /\ l' = kept' ++ added.

(** ** The second revision of the component *)

Module Rev2.

(** The [useState] variables, the [useRef] cells, and the two parts of the
    environment the handlers touch: the clock and the pending timeouts.
    [imageRef] is [None] while [imageRef.current] is null; otherwise it holds
    the rectangle [imageRef.current.getBoundingClientRect()] returns in the
    current layout.  Every pending timeout is the callback
    [() => setHighlightedId(null)], kept by the time it is due. *)
Record State := mkState {
  annotations : list Annotation.t;
  selectedAnnotation : option Annotation.t;
  commentText : string;
  highlightedId : option nat;
  annotationMode : bool;
  isCommentsPanelOpen : bool;
  popupPosition : option Point.t;
  imageRef : option DOMRect.t;
  isDraggingRef : bool;
  lastMousePosRef : option Point.t;
  clock : Date;
  timers : list Date
}.

(** The state of a freshly mounted component at time [now]. *)
Definition initial (now : Date) : State :=
  mkState [] None "" None true false None None false None now [].

(** *** Setters *)

Definition setAnnotations (v : list Annotation.t) (s : State) : State :=
  mkState v (selectedAnnotation s) (commentText s) (highlightedId s)
    (annotationMode s) (isCommentsPanelOpen s) (popupPosition s) (imageRef s)
    (isDraggingRef s) (lastMousePosRef s) (clock s) (timers s).

Definition setSelectedAnnotation (v : option Annotation.t) (s : State) : State :=
  mkState (annotations s) v (commentText s) (highlightedId s)
    (annotationMode s) (isCommentsPanelOpen s) (popupPosition s) (imageRef s)
    (isDraggingRef s) (lastMousePosRef s) (clock s) (timers s).

Definition setCommentText (v : string) (s : State) : State :=
  mkState (annotations s) (selectedAnnotation s) v (highlightedId s)
    (annotationMode s) (isCommentsPanelOpen s) (popupPosition s) (imageRef s)
    (isDraggingRef s) (lastMousePosRef s) (clock s) (timers s).

Definition setHighlightedId (v : option nat) (s : State) : State :=
  mkState (annotations s) (selectedAnnotation s) (commentText s) v
    (annotationMode s) (isCommentsPanelOpen s) (popupPosition s) (imageRef s)
    (isDraggingRef s) (lastMousePosRef s) (clock s) (timers s).

Definition setAnnotationMode (v : bool) (s : State) : State :=
  mkState (annotations s) (selectedAnnotation s) (commentText s) (highlightedId s)
    v (isCommentsPanelOpen s) (popupPosition s) (imageRef s)
    (isDraggingRef s) (lastMousePosRef s) (clock s) (timers s).

Definition setIsCommentsPanelOpen (v : bool) (s : State) : State :=
  mkState (annotations s) (selectedAnnotation s) (commentText s) (highlightedId s)
    (annotationMode s) v (popupPosition s) (imageRef s)
    (isDraggingRef s) (lastMousePosRef s) (clock s) (timers s).

Definition setPopupPosition (v : option Point.t) (s : State) : State :=
  mkState (annotations s) (selectedAnnotation s) (commentText s) (highlightedId s)
    (annotationMode s) (isCommentsPanelOpen s) v (imageRef s)
    (isDraggingRef s) (lastMousePosRef s) (clock s) (timers s).

Definition setImageRef (v : option DOMRect.t) (s : State) : State :=
  mkState (annotations s) (selectedAnnotation s) (commentText s) (highlightedId s)
    (annotationMode s) (isCommentsPanelOpen s) (popupPosition s) v
    (isDraggingRef s) (lastMousePosRef s) (clock s) (timers s).

Definition setIsDraggingRef (v : bool) (s : State) : State :=
  mkState (annotations s) (selectedAnnotation s) (commentText s) (highlightedId s)
    (annotationMode s) (isCommentsPanelOpen s) (popupPosition s) (imageRef s)
    v (lastMousePosRef s) (clock s) (timers s).

Definition setLastMousePosRef (v : option Point.t) (s : State) : State :=
  mkState (annotations s) (selectedAnnotation s) (commentText s) (highlightedId s)
    (annotationMode s) (isCommentsPanelOpen s) (popupPosition s) (imageRef s)
    (isDraggingRef s) v (clock s) (timers s).

(** [setTimeout(() => setHighlightedId(null), delay)] *)
Definition setTimeout (delay : N) (s : State) : State :=
  mkState (annotations s) (selectedAnnotation s) (commentText s) (highlightedId s)
    (annotationMode s) (isCommentsPanelOpen s) (popupPosition s) (imageRef s)
    (isDraggingRef s) (lastMousePosRef s) (clock s)
    (timers s ++ [(clock s + delay)%N]).

(** *** Derived values of a render *)

(** [useMemo(() => annotations.filter(a => a.text), [annotations])] *)
Definition commentsWithText (s : State) : list Annotation.t :=
  with_text (annotations s).

Definition commentsCount (s : State) : nat := length (commentsWithText s).

(** The popup is rendered under [popupPosition && selectedAnnotation]. *)
Definition popupRendered (s : State) : bool :=
  match popupPosition s, selectedAnnotation s with
  | Some _, Some _ => true
  | _, _ => false
  end.

(** The ring of a marker: [highlightedId === annotation.id]. *)
Definition highlighted (s : State) (a : Annotation.t) : bool :=
  match highlightedId s with
  | Some h => h =? Annotation.id a
  | None => false
  end.

(** *** Handlers *)

Definition closePopup (s : State) : State :=
  setCommentText "" (setSelectedAnnotation None (setPopupPosition None s)).

(** [rect] is the bounding rectangle of the clicked marker. *)
Definition handleMarkerClick (annotation : Annotation.t) (rect : DOMRect.t)
    (s : State) : State :=
  setPopupPosition (Some (Point.mk (DOMRect.left rect) (DOMRect.top rect)))
    (setCommentText (Annotation.text annotation)
       (setSelectedAnnotation (Some annotation) s)).

Definition handleSaveComment (s : State) : State :=
  match selectedAnnotation s with
  | None => s
  | Some sel =>
      closePopup
        (setAnnotations
           (save_comment sel (commentText s) (clock s) (annotations s)) s)
  end.

Definition handleCancel (s : State) : State :=
  match selectedAnnotation s with
  | None => s
  | Some sel =>
      closePopup
        (if negb (truthy (Annotation.text sel)) && negb (truthy (commentText s))
         then setAnnotations (remove_id sel (annotations s)) s
         else s)
  end.

Definition handleListClick (annotation : Annotation.t) (s : State) : State :=
  setTimeout HIGHLIGHT_DELAY (setHighlightedId (Some (Annotation.id annotation)) s).

Definition handleImageClick (e : MouseEvent.t) (s : State) : State :=
  match annotationMode s, imageRef s, isDraggingRef s with
  | true, Some rect, false =>
      let newAnn :=
        newAnnotation (length (annotations s)) e rect (clock s) in
      setPopupPosition
        (Some (Point.mk (MouseEvent.clientX e) (MouseEvent.clientY e)))
        (setCommentText ""
           (setSelectedAnnotation (Some newAnn)
              (setAnnotations (annotations s ++ [newAnn]) s)))
  | _, _, _ => setIsDraggingRef false s
  end.

Definition handleMouseDown (e : MouseEvent.t) (s : State) : State :=
  match imageRef s with
  | None => s
  | Some _ =>
      setIsDraggingRef false
        (setLastMousePosRef
           (Some (Point.mk (MouseEvent.clientX e) (MouseEvent.clientY e))) s)
  end.

Definition handleMouseMove (e : MouseEvent.t) (s : State) : State :=
  match lastMousePosRef s, imageRef s with
  | Some last, Some _ =>
      if moved_beyond (MouseEvent.clientX e) (Point.x last)
         || moved_beyond (MouseEvent.clientY e) (Point.y last)
      then setIsDraggingRef true s
      else s
  | _, _ => s
  end.

Definition handleMouseUp (s : State) : State :=
  setLastMousePosRef None s.

(** *** The event loop *)

(** The clock advances by [d] milliseconds; every timeout that has come due
    runs its callback [() => setHighlightedId(null)] and leaves the queue. *)
Definition elapse (d : N) (s : State) : State :=
  let now := (clock s + d)%N in
  let due := List.filter (fun t => (t <=? now)%N) (timers s) in
  let s' :=
    mkState (annotations s) (selectedAnnotation s) (commentText s)
      (highlightedId s) (annotationMode s) (isCommentsPanelOpen s)
      (popupPosition s) (imageRef s) (isDraggingRef s) (lastMousePosRef s)
      now (List.filter (fun t => negb (t <=? now)%N) (timers s)) in
  match due with
  | [] => s'
  | _ :: _ => setHighlightedId None s'
  end.

(** What can happen to a mounted component.  A marker or a comment entry is
    named by its position in the list it is rendered from. *)
Inductive Event :=
  | ImageClick (e : MouseEvent.t)
  | MouseDown (e : MouseEvent.t)
  | MouseMove (e : MouseEvent.t)
  | MouseUp
  | MarkerClick (i : nat) (rect : DOMRect.t)
  | ChangeText (value : string)
  | SaveClick
  | CancelClick
  | ListClick (i : nat)
  | ToggleAnnotationMode
  | OpenCommentsPanel
  | CloseCommentsPanel
  | Layout (image : option DOMRect.t)
  | Elapse (d : N).

(** The JSX wiring: which handler an event reaches.  The textarea and the
    save and cancel buttons exist only while the popup is rendered; a marker
    exists for every element of [annotations], a comment entry for every
    element of [commentsWithText]. *)
Definition step (ev : Event) (s : State) : State :=
  match ev with
  | ImageClick e => handleImageClick e s
  | MouseDown e => handleMouseDown e s
  | MouseMove e => handleMouseMove e s
  | MouseUp => handleMouseUp s
  | MarkerClick i rect =>
      match annotations s !! i with
      | Some annotation => handleMarkerClick annotation rect s
      | None => s
      end
  | ChangeText value => if popupRendered s then setCommentText value s else s
  | SaveClick => if popupRendered s then handleSaveComment s else s
  | CancelClick => if popupRendered s then handleCancel s else s
  | ListClick i =>
      match commentsWithText s !! i with
      | Some annotation =>
          setIsCommentsPanelOpen false (handleListClick annotation s)
      | None => s
      end
  | ToggleAnnotationMode => setAnnotationMode (negb (annotationMode s)) s
  | OpenCommentsPanel => setIsCommentsPanelOpen true s
  | CloseCommentsPanel => setIsCommentsPanelOpen false s
  | Layout image => setImageRef image s
  | Elapse d => elapse d s
  end.

Definition run (evs : list Event) (s : State) : State :=
  fold_left (fun acc ev => step ev acc) evs s.

(** The states the component can be in: those a trace of events leads to
    from a fresh mount. *)
Definition reachable (s : State) : Prop :=
  exists now evs, s = run evs (initial now).

(** A pointer gesture over the image container: press, moves, release, and
    the click the browser then delivers. *)
Definition gesture (press : MouseEvent.t) (moves : list MouseEvent.t)
    (click : MouseEvent.t) : list Event :=
  MouseDown press :: map MouseMove moves ++ [MouseUp; ImageClick click].

(** The move [m] is more than 5 units away from the press point in some axis. *)
Definition exceeds (press m : MouseEvent.t) : bool :=
  moved_beyond (MouseEvent.clientX m) (MouseEvent.clientX press)
  || moved_beyond (MouseEvent.clientY m) (MouseEvent.clientY press).

(** The state a click that creates no pin leaves behind. *)
Definition pointer_released (s : State) : State :=
  setIsDraggingRef false (setLastMousePosRef None s).

(** The state a click that creates a pin leaves behind. *)
Definition pin_created (click : MouseEvent.t) (rect : DOMRect.t) (s : State)
  : State :=
  let newAnn := newAnnotation (length (annotations s)) click rect (clock s) in
  setPopupPosition
    (Some (Point.mk (MouseEvent.clientX click) (MouseEvent.clientY click)))
    (setCommentText ""
       (setSelectedAnnotation (Some newAnn)
          (setAnnotations (annotations s ++ [newAnn]) (pointer_released s)))).

(** A click of the user on the image after some time has passed: the wait,
    then a gesture.  It is plain when no move of the gesture is more than 5
    units away from the press point. *)
Module Click.
Record t := mk {
  wait : N;
  press : MouseEvent.t;
  moves : list MouseEvent.t;
  release : MouseEvent.t
}.
End Click.

Definition is_plain (c : Click.t) : bool :=
  negb (existsb (exceeds (Click.press c)) (Click.moves c)).

Definition click_events (c : Click.t) : list Event :=
  Elapse (Click.wait c)
  :: gesture (Click.press c) (Click.moves c) (Click.release c).

Definition clicks (cs : list Click.t) : list Event :=
  flat_map click_events cs.

(** The events the annotation-mode switch has a say in, and the switch. *)
Definition is_image_click (ev : Event) : bool :=
  match ev with
  | ImageClick _ => true
  | _ => false
  end.

Definition is_toggle (ev : Event) : bool :=
  match ev with
  | ToggleAnnotationMode => true
  | _ => false
  end.

(** What the plain clicks [cs] do to a state: the switch stays on, the image
    stays mounted, and the store grows by the list [pins], one pin a click. *)
Definition clicked (s : State) (rect : DOMRect.t) (cs : list Click.t)
    (pins : list Annotation.t) : Prop :=
  annotationMode (run (clicks cs) s) = true
  /\ imageRef (run (clicks cs) s) = Some rect
  /\ annotations (run (clicks cs) s) = annotations s ++ pins
  /\ length pins = length cs
  /\ map Annotation.id pins = seq (length (annotations s) + 1) (length cs)
  /\ Forall (fun a => Annotation.text a = "") pins
  /\ forall (i : nat) (c : Click.t),
      cs !! i = Some c ->
      exists a,
        pins !! i = Some a
        /\ Annotation.id a
           = length (annotations (run (clicks (take i cs)) s)) + 1
        /\ Annotation.x a
           = percent (MouseEvent.clientX (Click.release c))
               (DOMRect.left rect) (DOMRect.width rect)
        /\ Annotation.y a
           = percent (MouseEvent.clientY (Click.release c))
               (DOMRect.top rect) (DOMRect.height rect).

(** The events that set the highlight or let time pass. *)
Definition is_list_click (ev : Event) : bool :=
  match ev with
  | ListClick _ => true
  | _ => false
  end.

Definition is_elapse (ev : Event) : bool :=
  match ev with
  | Elapse _ => true
  | _ => false
  end.

(** The time that passes during a trace. *)
Fixpoint elapsed (evs : list Event) : N :=
  match evs with
  | [] => 0
  | Elapse d :: evs => d + elapsed evs
  | _ :: evs => elapsed evs
  end.

End Rev2.

(** ** The first revision of the component *)

Module Rev1.

(** As in [Rev2], with [isModalOpen] in place of the popup position and no
    comments drawer; the press position is kept in [mouseDownPosRef]. *)
Record State := mkState {
  annotations : list Annotation.t;
  selectedAnnotation : option Annotation.t;
  isModalOpen : bool;
  commentText : string;
  highlightedId : option nat;
  annotationMode : bool;
  imageRef : option DOMRect.t;
  isDraggingRef : bool;
  mouseDownPosRef : option Point.t;
  clock : Date;
  timers : list Date
}.

Definition initial (now : Date) : State :=
  mkState [] None false "" None true None false None now [].

Definition setAnnotations (v : list Annotation.t) (s : State) : State :=
  mkState v (selectedAnnotation s) (isModalOpen s) (commentText s)
    (highlightedId s) (annotationMode s) (imageRef s) (isDraggingRef s)
    (mouseDownPosRef s) (clock s) (timers s).

Definition setSelectedAnnotation (v : option Annotation.t) (s : State) : State :=
  mkState (annotations s) v (isModalOpen s) (commentText s)
    (highlightedId s) (annotationMode s) (imageRef s) (isDraggingRef s)
    (mouseDownPosRef s) (clock s) (timers s).

Definition setIsModalOpen (v : bool) (s : State) : State :=
  mkState (annotations s) (selectedAnnotation s) v (commentText s)
    (highlightedId s) (annotationMode s) (imageRef s) (isDraggingRef s)
    (mouseDownPosRef s) (clock s) (timers s).

Definition setCommentText (v : string) (s : State) : State :=
  mkState (annotations s) (selectedAnnotation s) (isModalOpen s) v
    (highlightedId s) (annotationMode s) (imageRef s) (isDraggingRef s)
    (mouseDownPosRef s) (clock s) (timers s).

Definition setHighlightedId (v : option nat) (s : State) : State :=
  mkState (annotations s) (selectedAnnotation s) (isModalOpen s) (commentText s)
    v (annotationMode s) (imageRef s) (isDraggingRef s)
    (mouseDownPosRef s) (clock s) (timers s).

Definition setIsDraggingRef (v : bool) (s : State) : State :=
  mkState (annotations s) (selectedAnnotation s) (isModalOpen s) (commentText s)
    (highlightedId s) (annotationMode s) (imageRef s) v
    (mouseDownPosRef s) (clock s) (timers s).

Definition setMouseDownPosRef (v : option Point.t) (s : State) : State :=
  mkState (annotations s) (selectedAnnotation s) (isModalOpen s) (commentText s)
    (highlightedId s) (annotationMode s) (imageRef s) (isDraggingRef s)
    v (clock s) (timers s).

Definition setTimeout (delay : N) (s : State) : State :=
  mkState (annotations s) (selectedAnnotation s) (isModalOpen s) (commentText s)
    (highlightedId s) (annotationMode s) (imageRef s) (isDraggingRef s)
    (mouseDownPosRef s) (clock s) (timers s ++ [(clock s + delay)%N]).

(** [annotations.filter(a => a.text)] of the comments panel. *)
Definition commentsWithText (s : State) : list Annotation.t :=
  with_text (annotations s).

(** The editor of a new pin, as both click handlers of this revision open it. *)
Definition openEditor (newAnn : Annotation.t) (s : State) : State :=
  setIsModalOpen true
    (setCommentText ""
       (setSelectedAnnotation (Some newAnn)
          (setAnnotations (annotations s ++ [newAnn]) s))).

(** Declared in the component, but no element of this revision's JSX uses it. *)
Definition handleImageClick (e : MouseEvent.t) (s : State) : State :=
  if isDraggingRef s then setIsDraggingRef false s
  else
    match imageRef s with
    | None => s
    | Some rect =>
        openEditor (newAnnotation (length (annotations s)) e rect (clock s)) s
    end.

(** The inline [onClick] of the image container. *)
Definition onClick (e : MouseEvent.t) (s : State) : State :=
  match annotationMode s, imageRef s with
  | true, Some rect =>
      openEditor (newAnnotation (length (annotations s)) e rect (clock s)) s
  | _, _ => s
  end.

Definition handleMouseDown (e : MouseEvent.t) (s : State) : State :=
  setIsDraggingRef false
    (setMouseDownPosRef
       (Some (Point.mk (MouseEvent.clientX e) (MouseEvent.clientY e))) s).

Definition handleMouseMove (e : MouseEvent.t) (s : State) : State :=
  match mouseDownPosRef s with
  | Some pos =>
      if moved_beyond (MouseEvent.clientX e) (Point.x pos)
         || moved_beyond (MouseEvent.clientY e) (Point.y pos)
      then setIsDraggingRef true s
      else s
  | None => s
  end.

Definition handleMouseUp (s : State) : State :=
  setMouseDownPosRef None s.

Definition handleMarkerClick (annotation : Annotation.t) (s : State) : State :=
  setIsModalOpen true
    (setCommentText (Annotation.text annotation)
       (setSelectedAnnotation (Some annotation) s)).

Definition closeModal (s : State) : State :=
  setCommentText "" (setSelectedAnnotation None (setIsModalOpen false s)).

Definition handleSaveComment (s : State) : State :=
  match selectedAnnotation s with
  | None => s
  | Some sel =>
      closeModal
        (setAnnotations
           (save_comment sel (commentText s) (clock s) (annotations s)) s)
  end.

Definition handleCancel (s : State) : State :=
  match selectedAnnotation s with
  | None => s
  | Some sel =>
      closeModal
        (if negb (truthy (Annotation.text sel)) && negb (truthy (commentText s))
         then setAnnotations (remove_id sel (annotations s)) s
         else s)
  end.

Definition handleListClick (annotation : Annotation.t) (s : State) : State :=
  setTimeout HIGHLIGHT_DELAY (setHighlightedId (Some (Annotation.id annotation)) s).

End Rev1.

(** The two revisions hold the same store, pin under edit, draft and clock. *)
Definition same_editor (s1 : Rev1.State) (s2 : Rev2.State) : Prop :=
  Rev1.annotations s1 = Rev2.annotations s2
  /\ Rev1.selectedAnnotation s1 = Rev2.selectedAnnotation s2
  /\ Rev1.commentText s1 = Rev2.commentText s2
  /\ Rev1.clock s1 = Rev2.clock s2.

(** ** Notions used to state further properties of the handlers *)

Definition is_save (ev : Rev2.Event) : bool :=
  match ev with
  | Rev2.SaveClick => true
  | _ => false
  end.

Definition is_cancel (ev : Rev2.Event) : bool :=
  match ev with
  | Rev2.CancelClick => true
  | _ => false
  end.

(** The ids of the store are 1, 2, ..., n, in the order of the store. *)
Definition well_numbered (l : list Annotation.t) : Prop :=
  map Annotation.id l = seq 1 (length l).


(** ** Sample inputs *)

(** The image laid out at (100, 50), 200 wide and 100 high, and a click at
    (160, 90): 30% of the width and 40% of the height. *)
Definition sample_rect : DOMRect.t := DOMRect.mk 100 50 200 100.
Definition sample_click : MouseEvent.t := MouseEvent.mk 160 90.

(** A component mounted at time 1000 whose image has been laid out. *)
Definition mounted : Rev2.State :=
  Rev2.run [Rev2.Layout (Some sample_rect)] (Rev2.initial 1000%N).

(** One click on the image: pin 1 is under edit, nothing typed yet. *)
Definition one_pin_open : Rev2.State :=
  Rev2.run [Rev2.ImageClick sample_click] mounted.

(** Two pins with the comments a and b. *)
Definition two_comments : Rev2.State :=
  Rev2.run
    [Rev2.ImageClick sample_click; Rev2.ChangeText "a"; Rev2.SaveClick;
     Rev2.ImageClick sample_click; Rev2.ChangeText "b"; Rev2.SaveClick]
    mounted.

(** Pin 1 under edit, its stored text still empty, with a draft typed into
    the editor. *)
Definition draft_typed : Rev2.State :=
  Rev2.run [Rev2.ChangeText "abc"] one_pin_open.

(** Three plain clicks, the second with a small move before the release. *)
Definition three_clicks : list Rev2.Click.t :=
  [Rev2.Click.mk 0 sample_click [] sample_click;
   Rev2.Click.mk 250 sample_click [MouseEvent.mk 163 91] (MouseEvent.mk 163 91);
   Rev2.Click.mk 4000 (MouseEvent.mk 120 60) [] (MouseEvent.mk 120 60)].

(** Pin 1 has a comment; pin 2 was created and its edit cancelled at once. *)
Definition pin2_cancelled : Rev2.State :=
  Rev2.run
    [Rev2.ImageClick sample_click; Rev2.ChangeText "a"; Rev2.SaveClick;
     Rev2.ImageClick sample_click; Rev2.CancelClick]
    mounted.

(** Three pins were created without a comment; then the marker of pin 2 was
    clicked and its edit cancelled. *)
Definition middle_pin_cancelled : Rev2.State :=
  Rev2.run
    [Rev2.ImageClick sample_click; Rev2.ImageClick sample_click;
     Rev2.ImageClick sample_click; Rev2.MarkerClick 1 sample_rect;
     Rev2.CancelClick]
    mounted.

(** After that, a click at 10% across and 10% down the image: the new pin is
    under edit, and it is the second pin with id 3. *)
Definition other_click : MouseEvent.t := MouseEvent.mk 120 60.

Definition twin_pin_open : Rev2.State :=
  Rev2.run [Rev2.ImageClick other_click] middle_pin_cancelled.

(** The first comment entry was selected a second and a half ago. *)
Definition first_entry_selected : Rev2.State :=
  Rev2.run [Rev2.ListClick 0; Rev2.Elapse 1500] two_comments.

(** ** Facts about the list operations of the store *)

Section ListFacts.

Implicit Types (l : list Annotation.t) (a sel : Annotation.t).

Lemma truthy_true (t : string) : truthy t = true <-> t <> "".
Proof. destruct t; simpl; split; intros; congruence. Qed.

Lemma truthy_false (t : string) : truthy t = false <-> t = "".
Proof. destruct t; simpl; split; intros; congruence. Qed.

Lemma filter_sublist {A} (f : A -> bool) (l : list A) :
  List.filter f l `sublist_of` l.
Proof.
  induction l as [|a l IH]; simpl.
  - constructor.
  - destruct (f a); now constructor.
Qed.

Lemma elem_of_filter_bool {A} (f : A -> bool) (l : list A) (a : A) :
  a ∈ List.filter f l <-> a ∈ l /\ f a = true.
Proof. rewrite !list_elem_of_In. apply filter_In. Qed.

Lemma elem_of_with_text l a :
  a ∈ with_text l <-> a ∈ l /\ Annotation.text a <> "".
Proof.
  unfold with_text. rewrite elem_of_filter_bool, truthy_true. reflexivity.
Qed.

Lemma elem_of_remove_id sel l a :
  a ∈ remove_id sel l <-> a ∈ l /\ Annotation.id a <> Annotation.id sel.
Proof.
  unfold remove_id. rewrite elem_of_filter_bool, negb_true_iff, Nat.eqb_neq.
  reflexivity.
Qed.

Lemma length_save_comment sel t now l :
  length (save_comment sel t now l) = length l.
Proof. unfold save_comment. apply length_map. Qed.

Lemma lookup_save_comment sel t now l (i : nat) :
  save_comment sel t now l !! i =
  (fun ann => if Annotation.id ann =? Annotation.id sel
              then with_comment t now ann else ann) <$> (l !! i).
Proof. unfold save_comment. apply list_lookup_fmap. Qed.

End ListFacts.

(** ** The comment panel *)

(** C7. In every state of either revision the comment list holds exactly the
    pins of the store whose text is not empty, and it is the store with the
    other pins left out, so the pins keep the order of the store. *)
Theorem comment_list_is_pins_with_text :
  (forall s : Rev2.State,
      (forall a, a ∈ Rev2.commentsWithText s <->
                 a ∈ Rev2.annotations s /\ Annotation.text a <> "")
      /\ Rev2.commentsWithText s `sublist_of` Rev2.annotations s
      /\ Rev2.commentsCount s = length (Rev2.commentsWithText s))
  /\ (forall s : Rev1.State,
      (forall a, a ∈ Rev1.commentsWithText s <->
                 a ∈ Rev1.annotations s /\ Annotation.text a <> "")
      /\ Rev1.commentsWithText s `sublist_of` Rev1.annotations s).
Proof.
  split; intros s; repeat split;
    try (intros; eapply elem_of_with_text; eassumption);
    try (intros [? ?]; apply elem_of_with_text; auto);
    apply filter_sublist.
Qed.

(** ** Reachable states *)

Section Reachable.

Import Rev2.

Lemma run_app (evs1 evs2 : list Event) (s : State) :
  run (evs1 ++ evs2) s = run evs2 (run evs1 s).
Proof. unfold run. apply fold_left_app. Qed.

Lemma run_cons (ev : Event) (evs : list Event) (s : State) :
  run (ev :: evs) s = run evs (step ev s).
Proof. reflexivity. Qed.

Lemma reachable_initial (now : Date) : reachable (initial now).
Proof. exists now, []. reflexivity. Qed.

Lemma reachable_step (ev : Event) (s : State) :
  reachable s -> reachable (step ev s).
Proof.
  intros (now & evs & ->). exists now, (evs ++ [ev]).
  rewrite run_app. reflexivity.
Qed.

Lemma reachable_run (evs : list Event) (s : State) :
  reachable s -> reachable (run evs s).
Proof.
  revert s. induction evs as [|ev evs IH]; intros s Hs; simpl; [assumption|].
  apply IH, reachable_step, Hs.
Qed.

(** An invariant of [step] that holds after mounting holds in every
    reachable state. *)
Lemma reachable_ind (P : State -> Prop) :
  (forall now, P (initial now)) ->
  (forall ev s, P s -> P (step ev s)) ->
  forall s, reachable s -> P s.
Proof.
  intros Hinit Hstep s (now & evs & ->).
  induction evs as [|ev evs IH] using rev_ind; [apply Hinit|].
  rewrite run_app. apply Hstep, IH.
Qed.

(** Time passing touches the clock, the timers and the highlight only. *)
Lemma elapse_annotations (d : N) (s : State) :
  annotations (elapse d s) = annotations s.
Proof. unfold elapse. destruct (List.filter _ _); reflexivity. Qed.


Lemma elapse_clock (d : N) (s : State) : clock (elapse d s) = (clock s + d)%N.
Proof. unfold elapse. destruct (List.filter _ _); reflexivity. Qed.


End Reachable.

(** ** Cancelling an edit *)

Section Cancel.

Import Rev2.

Lemma closePopup_clears (s : State) :
  selectedAnnotation (closePopup s) = None
  /\ popupPosition (closePopup s) = None
  /\ commentText (closePopup s) = ""
  /\ popupRendered (closePopup s) = false
  /\ annotations (closePopup s) = annotations s.
Proof. repeat split. Qed.

Lemma handleCancel_annotations (s : State) (sel : Annotation.t) :
  selectedAnnotation s = Some sel ->
  annotations (handleCancel s) =
  if negb (truthy (Annotation.text sel)) && negb (truthy (commentText s))
  then remove_id sel (annotations s)
  else annotations s.
Proof.
  intros Hsel. unfold handleCancel. rewrite Hsel.
  destruct (negb _ && negb _); reflexivity.
Qed.

(** C2, as stated, fails.  Pin 1 is under edit in a reachable state, its
    stored text is empty, a draft has been typed into the editor: cancelling
    keeps the pin in the store. *)
Lemma cancel_with_draft_keeps_textless_pin :
  ~ (forall (s : State) (sel : Annotation.t),
        reachable s ->
        selectedAnnotation s = Some sel ->
        sel ∈ annotations s ->
        Annotation.text sel = "" ->
        sel ∉ annotations (handleCancel s)).
Proof.
  intros H.
  apply (H draft_typed (Annotation.mk 1 30%float 40%float "" 1000%N)).
  - exists 1000%N,
      [Layout (Some sample_rect); ImageClick sample_click; ChangeText "abc"].
    reflexivity.
  - reflexivity.
  - apply list_elem_of_singleton. reflexivity.
  - reflexivity.
  - apply list_elem_of_singleton. reflexivity.
Qed.

(** C2, amended.  For the pin [sel] under edit: when the text of [sel] and
    the draft in the editor are both empty, cancelling removes [sel] from the
    store and keeps every pin with another id, in the order of the store;
    when the text of [sel] or the draft is not empty, cancelling leaves the
    store as it is; either way the edit focus, the draft and the popup are
    cleared. *)
Theorem cancel_removes_pin_without_text_and_draft
    (s : State) (sel : Annotation.t) :
  selectedAnnotation s = Some sel ->
  (Annotation.text sel = "" -> commentText s = "" ->
     (sel ∉ annotations (handleCancel s))
     /\ (forall a, a ∈ annotations s ->
                   Annotation.id a <> Annotation.id sel ->
                   a ∈ annotations (handleCancel s))
     /\ annotations (handleCancel s) `sublist_of` annotations s)
  /\ (Annotation.text sel <> "" \/ commentText s <> "" ->
      annotations (handleCancel s) = annotations s)
  /\ selectedAnnotation (handleCancel s) = None
  /\ popupPosition (handleCancel s) = None
  /\ commentText (handleCancel s) = ""
  /\ popupRendered (handleCancel s) = false.
Proof.
  intros Hsel. split; [|split].
  - intros Htext Hdraft. rewrite (handleCancel_annotations s sel Hsel).
    apply truthy_false in Htext, Hdraft. rewrite Htext, Hdraft. simpl.
    repeat apply conj.
    + intros Hin. apply elem_of_remove_id in Hin as [_ Hid]. now apply Hid.
    + intros a Ha Hid. apply elem_of_remove_id. split; assumption.
    + apply filter_sublist.
  - intros Hsome. rewrite (handleCancel_annotations s sel Hsel).
    destruct Hsome as [H|H]; apply truthy_true in H; rewrite H; simpl;
      [reflexivity|].
    rewrite andb_false_r. reflexivity.
  - unfold handleCancel. rewrite Hsel.
    destruct (closePopup_clears
                (if negb (truthy (Annotation.text sel))
                    && negb (truthy (commentText s))
                 then setAnnotations (remove_id sel (annotations s)) s
                 else s)) as (H1 & H2 & H3 & H4 & _).
    auto.
Qed.

(** The theorem at the state with pin 1 freshly created and under edit:
    cancelling empties the store and closes the editor. *)
Lemma cancel_removes_pin_without_text_and_draft_witness :
  selectedAnnotation one_pin_open
  = Some (Annotation.mk 1 30%float 40%float "" 1000%N)
  /\ (Annotation.mk 1 30%float 40%float "" 1000%N
      ∉ annotations (handleCancel one_pin_open))
  /\ selectedAnnotation (handleCancel one_pin_open) = None.
Proof.
  split; [reflexivity|].
  destruct (cancel_removes_pin_without_text_and_draft one_pin_open
              (Annotation.mk 1 30%float 40%float "" 1000%N) eq_refl)
    as (Hdel & _ & Hsel & _).
  split; [|exact Hsel].
  apply Hdel; reflexivity.
Defined.

End Cancel.

(** ** Saving a comment *)

Section Save.

Import Rev2.

Lemma handleSaveComment_annotations (s : State) (sel : Annotation.t) :
  selectedAnnotation s = Some sel ->
  annotations (handleSaveComment s) =
  save_comment sel (commentText s) (clock s) (annotations s).
Proof. intros Hsel. unfold handleSaveComment. rewrite Hsel. reflexivity. Qed.

Lemma with_comment_timestamp (t : string) (now : Date) (ann : Annotation.t) :
  (Annotation.text ann = "" ->
   Annotation.timestamp (with_comment t now ann) = now)
  /\ (Annotation.text ann <> "" ->
      Annotation.timestamp (with_comment t now ann) = Annotation.timestamp ann).
Proof.
  unfold with_comment; simpl. split; intros H.
  - apply truthy_false in H. rewrite H. reflexivity.
  - apply truthy_true in H. rewrite H. reflexivity.
Qed.

(** C3, as stated, fails.  Pin 1 was created at time 1000 and is under edit
    with an empty draft; seven milliseconds later the empty draft is saved:
    the text stays empty and the timestamp becomes 1007. *)
Lemma save_of_empty_text_changes_timestamp :
  ~ (forall (s : State) (sel ann ann' : Annotation.t) (i : nat),
        reachable s ->
        selectedAnnotation s = Some sel ->
        commentText s = "" ->
        annotations s !! i = Some ann ->
        annotations (handleSaveComment s) !! i = Some ann' ->
        Annotation.timestamp ann' = Annotation.timestamp ann).
Proof.
  intros H.
  specialize (H (run [Elapse 7%N] one_pin_open)
                (Annotation.mk 1 30%float 40%float "" 1000%N)
                (Annotation.mk 1 30%float 40%float "" 1000%N)
                (Annotation.mk 1 30%float 40%float "" 1007%N)
                0).
  simpl in H. discriminate H; try reflexivity.
  exists 1000%N,
    [Layout (Some sample_rect); ImageClick sample_click; Elapse 7%N].
  reflexivity.
Qed.

(** C3, amended.  Saving with the pin [sel] under edit keeps the length and
    the order of the store; the pin [sel] gets the draft as its text, keeps
    its id and coordinates, and gets the time of the save as its timestamp
    exactly when its text was empty before the save, whether or not the saved
    text is empty; when it already had text it keeps its timestamp; every pin
    with another id is left as it is. *)
Theorem save_sets_text_and_stamps_pin_without_text
    (s : State) (sel : Annotation.t) :
  selectedAnnotation s = Some sel ->
  length (annotations (handleSaveComment s)) = length (annotations s)
  /\ forall (i : nat) (ann : Annotation.t),
      annotations s !! i = Some ann ->
      exists ann',
        annotations (handleSaveComment s) !! i = Some ann'
        /\ (ann = sel ->
            Annotation.text ann' = commentText s
            /\ Annotation.id ann' = Annotation.id ann
            /\ Annotation.x ann' = Annotation.x ann
            /\ Annotation.y ann' = Annotation.y ann
            /\ (Annotation.text ann = "" ->
                Annotation.timestamp ann' = clock s)
            /\ (Annotation.text ann <> "" ->
                Annotation.timestamp ann' = Annotation.timestamp ann))
        /\ (Annotation.id ann <> Annotation.id sel -> ann' = ann).
Proof.
  intros Hsel. rewrite (handleSaveComment_annotations s sel Hsel). split.
  - apply length_save_comment.
  - intros i ann Hi. rewrite lookup_save_comment, Hi. simpl.
    eexists. split; [reflexivity|]. split.
    + intros ->. rewrite Nat.eqb_refl.
      destruct (with_comment_timestamp (commentText s) (clock s) sel)
        as [Hempty Htext].
      repeat split; assumption.
    + intros Hid. apply Nat.eqb_neq in Hid. rewrite Hid. reflexivity.
Qed.

(** The theorem at the state in which the empty draft of pin 1 is saved
    seven milliseconds after the pin was created. *)
Lemma save_sets_text_and_stamps_pin_without_text_witness :
  selectedAnnotation (run [Elapse 7%N] one_pin_open)
  = Some (Annotation.mk 1 30%float 40%float "" 1000%N)
  /\ length (annotations (handleSaveComment (run [Elapse 7%N] one_pin_open)))
     = length (annotations (run [Elapse 7%N] one_pin_open)).
Proof.
  split; [reflexivity|].
  apply (save_sets_text_and_stamps_pin_without_text
           (run [Elapse 7%N] one_pin_open)
           (Annotation.mk 1 30%float 40%float "" 1000%N) eq_refl).
Defined.

End Save.

(** ** Clicks and drags on the image *)

Section Gestures.

Import Rev2.

Lemma handleImageClick_creates (e : MouseEvent.t) (rect : DOMRect.t) (s : State) :
  annotationMode s = true -> imageRef s = Some rect -> isDraggingRef s = false ->
  handleImageClick e s =
  setPopupPosition
    (Some (Point.mk (MouseEvent.clientX e) (MouseEvent.clientY e)))
    (setCommentText ""
       (setSelectedAnnotation
          (Some (newAnnotation (length (annotations s)) e rect (clock s)))
          (setAnnotations
             (annotations s
              ++ [newAnnotation (length (annotations s)) e rect (clock s)])
             s))).
Proof.
  intros Hmode Himg Hdrag. unfold handleImageClick.
  rewrite Hmode, Himg, Hdrag. reflexivity.
Qed.

Lemma handleImageClick_ignored (e : MouseEvent.t) (s : State) :
  annotationMode s = false \/ imageRef s = None \/ isDraggingRef s = true ->
  handleImageClick e s = setIsDraggingRef false s.
Proof.
  unfold handleImageClick. intros [H|[H|H]]; rewrite H.
  - reflexivity.
  - destruct (annotationMode s); reflexivity.
  - destruct (annotationMode s), (imageRef s); reflexivity.
Qed.

(** Moves after a press on the mounted image: the drag flag is raised by the
    first move that is more than 5 units away from the press point in some
    axis, and no later move lowers it. *)
Lemma moves_set_drag_flag (press : MouseEvent.t) (rect : DOMRect.t)
    (moves : list MouseEvent.t) (s : State) :
  imageRef s = Some rect ->
  lastMousePosRef s
  = Some (Point.mk (MouseEvent.clientX press) (MouseEvent.clientY press)) ->
  run (map MouseMove moves) s
  = setIsDraggingRef (isDraggingRef s || existsb (exceeds press) moves) s.
Proof.
  revert s. induction moves as [|m moves IH]; intros s Himg Hlast.
  - simpl. rewrite orb_false_r. destruct s; reflexivity.
  - simpl map. rewrite run_cons. simpl step. unfold handleMouseMove.
    rewrite Hlast, Himg. simpl Point.x. simpl Point.y. simpl existsb.
    fold (exceeds press m). destruct (exceeds press m).
    + rewrite IH by assumption. simpl. rewrite orb_true_r. reflexivity.
    + rewrite IH by assumption. simpl. reflexivity.
Qed.

Lemma moves_unmounted (moves : list MouseEvent.t) (s : State) :
  imageRef s = None -> run (map MouseMove moves) s = s.
Proof.
  intros Himg. induction moves as [|m moves IH]; [reflexivity|].
  simpl map. rewrite run_cons. simpl step. unfold handleMouseMove.
  rewrite Himg. destruct (lastMousePosRef s); exact IH.
Qed.

(** What a whole gesture does. *)
Lemma gesture_mounted (press click : MouseEvent.t) (moves : list MouseEvent.t)
    (rect : DOMRect.t) (s : State) :
  imageRef s = Some rect ->
  run (gesture press moves click) s =
  if annotationMode s && negb (existsb (exceeds press) moves)
  then pin_created click rect s
  else pointer_released s.
Proof.
  intros Himg. unfold gesture. rewrite run_cons. simpl step.
  unfold handleMouseDown. rewrite Himg. rewrite run_app.
  rewrite (moves_set_drag_flag press rect) by (simpl; auto).
  simpl. unfold handleImageClick. simpl. rewrite Himg.
  destruct (annotationMode s), (existsb (exceeds press) moves); reflexivity.
Qed.

Lemma gesture_unmounted (press click : MouseEvent.t)
    (moves : list MouseEvent.t) (s : State) :
  imageRef s = None ->
  run (gesture press moves click) s = pointer_released s.
Proof.
  intros Himg. unfold gesture. rewrite run_cons. simpl step.
  unfold handleMouseDown. rewrite Himg. rewrite run_app.
  rewrite moves_unmounted by assumption.
  simpl. unfold handleImageClick. simpl. rewrite Himg.
  destruct (annotationMode s); reflexivity.
Qed.

Lemma elapse_gates (d : N) (s : State) :
  annotationMode (elapse d s) = annotationMode s
  /\ imageRef (elapse d s) = imageRef s.
Proof. unfold elapse. destruct (List.filter _ _); split; reflexivity. Qed.

(** C4. A press, moves of which at least one is more than 5 units away from
    the press point in some axis, the release and the click that follows:
    the store is the same afterwards, and so are the pin under edit, the
    draft and the popup, so no pin has been created. *)
Theorem drag_creates_no_pin (s : State) (press click : MouseEvent.t)
    (moves : list MouseEvent.t) :
  existsb (exceeds press) moves = true ->
  annotations (run (gesture press moves click) s) = annotations s
  /\ selectedAnnotation (run (gesture press moves click) s) = selectedAnnotation s
  /\ commentText (run (gesture press moves click) s) = commentText s
  /\ popupPosition (run (gesture press moves click) s) = popupPosition s.
Proof.
  intros Hdrag. destruct (imageRef s) as [rect|] eqn:Himg.
  - rewrite (gesture_mounted press click moves rect s Himg), Hdrag.
    rewrite andb_false_r. repeat split.
  - rewrite (gesture_unmounted press click moves s Himg). repeat split.
Qed.

(** The theorem at a drag of 40 units to the right over the mounted image. *)
Lemma drag_creates_no_pin_witness :
  existsb (exceeds sample_click) [MouseEvent.mk 200 90] = true
  /\ annotations
       (run (gesture sample_click [MouseEvent.mk 200 90] (MouseEvent.mk 200 90))
            mounted)
     = annotations mounted.
Proof.
  split; [reflexivity|].
  apply (drag_creates_no_pin mounted sample_click (MouseEvent.mk 200 90)
           [MouseEvent.mk 200 90] eq_refl).
Defined.

(** Handlers other than the image click do the same whatever the switch
    says. *)
Lemma step_ignores_annotationMode (ev : Event) (b : bool) (s : State) :
  is_image_click ev = false -> is_toggle ev = false ->
  step ev (setAnnotationMode b s) = setAnnotationMode b (step ev s).
Proof.
  intros Hclick Htoggle. destruct ev; try discriminate; simpl.
  - unfold handleMouseDown. simpl. destruct (imageRef s); reflexivity.
  - unfold handleMouseMove. simpl.
    destruct (lastMousePosRef s), (imageRef s); try reflexivity.
    destruct (_ || _); reflexivity.
  - reflexivity.
  - destruct (annotations s !! i); reflexivity.
  - unfold popupRendered. simpl.
    destruct (popupPosition s), (selectedAnnotation s); reflexivity.
  - unfold popupRendered, handleSaveComment. simpl.
    destruct (popupPosition s), (selectedAnnotation s); reflexivity.
  - unfold popupRendered, handleCancel. simpl.
    destruct (popupPosition s), (selectedAnnotation s); try reflexivity.
    destruct (negb _ && negb _); reflexivity.
  - unfold commentsWithText. simpl.
    destruct (with_text (annotations s) !! i); reflexivity.
  - reflexivity.
  - reflexivity.
  - reflexivity.
  - unfold elapse. simpl. destruct (List.filter _ _); reflexivity.
Qed.

(** C6. With the switch off, a click on the image, plain or not, leaves the
    store as it is; with the switch on, a plain click on the mounted image
    appends one pin; and the switch has no say in any other handler: every
    event but the image click and the switch itself does the same to the
    state whatever the switch says.  The container click of the first
    revision is gated in the same way. *)
Theorem annotation_mode_gates_pin_creation :
  (forall (s : State) (press click : MouseEvent.t) (moves : list MouseEvent.t),
      annotationMode s = false ->
      annotations (step (ImageClick click) s) = annotations s
      /\ annotations (run (gesture press moves click) s) = annotations s)
  /\ (forall (s : State) (rect : DOMRect.t) (press click : MouseEvent.t)
             (moves : list MouseEvent.t),
      annotationMode s = true ->
      imageRef s = Some rect ->
      existsb (exceeds press) moves = false ->
      annotations (run (gesture press moves click) s)
      = annotations s
        ++ [newAnnotation (length (annotations s)) click rect (clock s)])
  /\ (forall (ev : Event) (b : bool) (s : State),
      is_image_click ev = false -> is_toggle ev = false ->
      step ev (setAnnotationMode b s) = setAnnotationMode b (step ev s))
  /\ (forall (s : Rev1.State) (e : MouseEvent.t),
      Rev1.annotationMode s = false -> Rev1.onClick e s = s)
  /\ (forall (s : Rev1.State) (rect : DOMRect.t) (e : MouseEvent.t),
      Rev1.annotationMode s = true ->
      Rev1.imageRef s = Some rect ->
      Rev1.annotations (Rev1.onClick e s)
      = Rev1.annotations s
        ++ [newAnnotation (length (Rev1.annotations s)) e rect (Rev1.clock s)]).
Proof.
  repeat apply conj.
  - intros s press click moves Hoff. split.
    + simpl. rewrite handleImageClick_ignored by auto. reflexivity.
    + destruct (imageRef s) as [rect|] eqn:Himg.
      * rewrite (gesture_mounted press click moves rect s Himg), Hoff.
        reflexivity.
      * rewrite (gesture_unmounted press click moves s Himg). reflexivity.
  - intros s rect press click moves Hon Himg Hplain.
    rewrite (gesture_mounted press click moves rect s Himg), Hon, Hplain.
    reflexivity.
  - apply step_ignores_annotationMode.
  - intros s e Hoff. unfold Rev1.onClick. rewrite Hoff. reflexivity.
  - intros s rect e Hon Himg. unfold Rev1.onClick. rewrite Hon, Himg.
    reflexivity.
Qed.

(** The theorem at the mounted component: with the switch turned off a plain
    click leaves the store empty, with the switch on it creates pin 1. *)
Lemma annotation_mode_gates_pin_creation_witness :
  annotations
    (run (gesture sample_click [] sample_click)
         (step ToggleAnnotationMode mounted))
  = []
  /\ annotations (run (gesture sample_click [] sample_click) mounted)
     = [Annotation.mk 1 30%float 40%float "" 1000%N].
Proof.
  destruct annotation_mode_gates_pin_creation as (Hoff & Hon & _).
  split.
  - apply (Hoff (step ToggleAnnotationMode mounted) sample_click sample_click
             [] eq_refl).
  - apply (Hon mounted sample_rect sample_click sample_click []
             eq_refl eq_refl eq_refl).
Defined.

(** One plain click on the mounted image with the switch on. *)
Lemma plain_click_creates (c : Click.t) (rect : DOMRect.t) (s : State) :
  annotationMode s = true -> imageRef s = Some rect -> is_plain c = true ->
  run (click_events c) s
  = pin_created (Click.release c) rect (elapse (Click.wait c) s).
Proof.
  intros Hon Himg Hplain. unfold click_events. rewrite run_cons. simpl step.
  destruct (elapse_gates (Click.wait c) s) as [Hmode' Himg'].
  rewrite (gesture_mounted _ _ _ rect) by (rewrite Himg'; exact Himg).
  rewrite Hmode', Hon. unfold is_plain in Hplain. rewrite Hplain.
  reflexivity.
Qed.

Lemma plain_clicks_clicked (s : State) (rect : DOMRect.t) (cs : list Click.t) :
  annotationMode s = true ->
  imageRef s = Some rect ->
  forallb is_plain cs = true ->
  exists pins, clicked s rect cs pins.
Proof.
  intros Hon Himg. induction cs as [|c cs IH] using rev_ind; intros Hplain.
  - exists []. unfold clicked. simpl. rewrite app_nil_r.
    repeat split; auto. intros i c Hi. destruct i; discriminate.
  - rewrite forallb_app in Hplain. apply andb_prop in Hplain as [Hcs Hc].
    simpl in Hc. rewrite andb_true_r in Hc.
    destruct (IH Hcs) as (pins & Hon' & Himg' & Hstore & Hlen & Hids & Htext & Hat).
    pose proof (plain_click_creates c rect _ Hon' Himg' Hc) as Hrun.
    assert (Hsnoc : run (clicks (cs ++ [c])) s
                    = pin_created (Click.release c) rect
                        (elapse (Click.wait c) (run (clicks cs) s))).
    { unfold clicks. rewrite flat_map_app, run_app. simpl flat_map.
      rewrite app_nil_r. exact Hrun. }
    destruct (elapse_gates (Click.wait c) (run (clicks cs) s)) as [Hm Hi].
    exists (pins ++
            [newAnnotation (length (annotations (run (clicks cs) s)))
               (Click.release c) rect
               (clock (elapse (Click.wait c) (run (clicks cs) s)))]).
    unfold clicked. rewrite Hsnoc. simpl.
    rewrite Hm, Hi, elapse_annotations, Hstore.
    repeat apply conj.
    + exact Hon'.
    + exact Himg'.
    + rewrite <- app_assoc. reflexivity.
    + rewrite !length_app, Hlen. reflexivity.
    + rewrite map_app, Hids, (length_app cs), seq_app. simpl.
      rewrite length_app, Hlen. do 2 f_equal. lia.
    + apply Forall_app. split; [exact Htext|]. repeat constructor.
    + intros i c0 Hlook.
      destruct (decide (i < length cs)) as [Hlt|Hge].
      * rewrite lookup_app_l in Hlook by exact Hlt.
        destruct (Hat i c0 Hlook) as (a & Ha & Hid & Hx & Hy).
        exists a. rewrite take_app_le by lia.
        repeat split; try assumption.
        apply lookup_app_l_Some. exact Ha.
      * assert (i = length cs) as ->.
        { apply lookup_lt_Some in Hlook. rewrite length_app in Hlook.
          simpl in Hlook. lia. }
        rewrite list_lookup_middle in Hlook by reflexivity.
        injection Hlook as <-.
        eexists. rewrite take_app_length, Hstore.
        split; [apply list_lookup_middle; symmetry; exact Hlen|].
        repeat split.
Qed.

(** C5. From a state with the switch on and the image mounted, N plain
    clicks append exactly N pins to the store; their ids continue the count
    of the store in click order, so from an empty store they are 1, ..., N;
    the pin of each click has as id the number of pins in the store when the
    click arrives plus one, has empty text, and lies where the click was. *)
Theorem plain_clicks_create_numbered_pins
    (s : State) (rect : DOMRect.t) (cs : list Click.t) :
  annotationMode s = true ->
  imageRef s = Some rect ->
  forallb is_plain cs = true ->
  exists pins : list Annotation.t,
    annotations (run (clicks cs) s) = annotations s ++ pins
    /\ length pins = length cs
    /\ map Annotation.id pins = seq (length (annotations s) + 1) (length cs)
    /\ (annotations s = [] ->
        map Annotation.id (annotations (run (clicks cs) s))
        = seq 1 (length cs))
    /\ Forall (fun a => Annotation.text a = "") pins
    /\ forall (i : nat) (c : Click.t),
        cs !! i = Some c ->
        exists a,
          pins !! i = Some a
          /\ Annotation.id a
             = length (annotations (run (clicks (take i cs)) s)) + 1
          /\ Annotation.x a
             = percent (MouseEvent.clientX (Click.release c))
                 (DOMRect.left rect) (DOMRect.width rect)
          /\ Annotation.y a
             = percent (MouseEvent.clientY (Click.release c))
                 (DOMRect.top rect) (DOMRect.height rect).
Proof.
  intros Hon Himg Hplain.
  destruct (plain_clicks_clicked s rect cs Hon Himg Hplain)
    as (pins & _ & _ & Hstore & Hlen & Hids & Htext & Hat).
  exists pins. repeat apply conj; try assumption.
  intros Hempty. rewrite Hstore, Hempty. simpl. rewrite Hids, Hempty.
  reflexivity.
Qed.

(** The theorem at three plain clicks on the freshly mounted component. *)
Lemma plain_clicks_create_numbered_pins_witness :
  annotationMode mounted = true
  /\ imageRef mounted = Some sample_rect
  /\ forallb is_plain three_clicks = true
  /\ exists pins : list Annotation.t,
      annotations (run (clicks three_clicks) mounted) = pins
      /\ length pins = 3
      /\ map Annotation.id pins = [1; 2; 3].
Proof.
  repeat split.
  destruct (plain_clicks_create_numbered_pins mounted sample_rect three_clicks
              eq_refl eq_refl eq_refl)
    as (pins & Hstore & Hlen & Hids & _).
  exists pins. repeat split; assumption.
Defined.

End Gestures.

(** ** Where a new pin lies *)

Section Coordinates.

(** C9. A click that creates a pin stores as its coordinates the position of
    the pointer within the rectangle the image has on screen at that moment,
    as percentages of its width and height.  This holds for the image click
    of the second revision and for both click handlers of the first. *)
Theorem new_pin_lies_at_click_percentages :
  (forall (s : Rev2.State) (rect : DOMRect.t) (e : MouseEvent.t),
      Rev2.annotationMode s = true ->
      Rev2.imageRef s = Some rect ->
      Rev2.isDraggingRef s = false ->
      exists a,
        Rev2.annotations (Rev2.handleImageClick e s) = Rev2.annotations s ++ [a]
        /\ Rev2.selectedAnnotation (Rev2.handleImageClick e s) = Some a
        /\ Annotation.x a
           = (((MouseEvent.clientX e - DOMRect.left rect) / DOMRect.width rect)
              * 100)%float
        /\ Annotation.y a
           = (((MouseEvent.clientY e - DOMRect.top rect) / DOMRect.height rect)
              * 100)%float)
  /\ (forall (s : Rev1.State) (rect : DOMRect.t) (e : MouseEvent.t),
      Rev1.imageRef s = Some rect ->
      (Rev1.isDraggingRef s = false ->
       exists a,
         Rev1.annotations (Rev1.handleImageClick e s)
         = Rev1.annotations s ++ [a]
         /\ Annotation.x a
            = (((MouseEvent.clientX e - DOMRect.left rect) / DOMRect.width rect)
               * 100)%float
         /\ Annotation.y a
            = (((MouseEvent.clientY e - DOMRect.top rect) / DOMRect.height rect)
               * 100)%float)
      /\ (Rev1.annotationMode s = true ->
          exists a,
            Rev1.annotations (Rev1.onClick e s) = Rev1.annotations s ++ [a]
            /\ Annotation.x a
               = (((MouseEvent.clientX e - DOMRect.left rect)
                   / DOMRect.width rect) * 100)%float
            /\ Annotation.y a
               = (((MouseEvent.clientY e - DOMRect.top rect)
                   / DOMRect.height rect) * 100)%float)).
Proof.
  split.
  - intros s rect e Hon Himg Hdrag.
    rewrite (handleImageClick_creates e rect s Hon Himg Hdrag).
    eexists. repeat split.
  - intros s rect e Himg. split.
    + intros Hdrag. unfold Rev1.handleImageClick. rewrite Hdrag, Himg.
      eexists. repeat split.
    + intros Hon. unfold Rev1.onClick. rewrite Hon, Himg.
      eexists. repeat split.
Qed.

(** The theorem at the sample click, 30% across and 40% down the image. *)
Lemma new_pin_lies_at_click_percentages_witness :
  exists a,
    Rev2.annotations (Rev2.handleImageClick sample_click mounted) = [a]
    /\ Annotation.x a = 30%float
    /\ Annotation.y a = 40%float.
Proof.
  destruct new_pin_lies_at_click_percentages as [Hrev2 _].
  destruct (Hrev2 mounted sample_rect sample_click eq_refl eq_refl eq_refl)
    as (a & Hstore & _ & Hx & Hy).
  exists a. repeat split; assumption.
Defined.

End Coordinates.

(** ** What the store operations leave alone *)

Section Frame.

Import Rev2.

Lemma same_place_refl (a : Annotation.t) : same_place a a.
Proof. repeat split. Qed.

Lemma Forall2_same_place_refl (l : list Annotation.t) :
  Forall2 same_place l l.
Proof. induction l; constructor; auto using same_place_refl. Qed.

Lemma keeps_pins_refl (l : list Annotation.t) : keeps_pins l l.
Proof.
  exists l, l, []. rewrite app_nil_r.
  split; [reflexivity|]. split; [apply Forall2_same_place_refl|reflexivity].
Qed.

Lemma keeps_pins_snoc (l : list Annotation.t) (a : Annotation.t) :
  keeps_pins l (l ++ [a]).
Proof.
  exists l, l, [a].
  split; [reflexivity|]. split; [apply Forall2_same_place_refl|reflexivity].
Qed.

(** Saving touches neither the id nor the place of a pin, and touches no pin
    with another id than the one under edit. *)
Lemma save_comment_pointwise (sel : Annotation.t) (t : string) (now : Date)
    (l : list Annotation.t) :
  Forall2 (fun a a' =>
             same_place a a'
             /\ (Annotation.id a <> Annotation.id sel -> a' = a))
          l (save_comment sel t now l).
Proof.
  induction l as [|a l IH]; simpl; constructor; [|exact IH].
  destruct (Annotation.id a =? Annotation.id sel) eqn:Hid.
  - split; [repeat split|]. apply Nat.eqb_eq in Hid. intros Hne. contradiction.
  - split; [apply same_place_refl|reflexivity].
Qed.

Lemma keeps_pins_save (sel : Annotation.t) (t : string) (now : Date)
    (l : list Annotation.t) :
  keeps_pins l (save_comment sel t now l).
Proof.
  exists l, (save_comment sel t now l), []. rewrite app_nil_r.
  split; [reflexivity|]. split; [|reflexivity].
  generalize (save_comment_pointwise sel t now l). apply Forall2_impl.
  intros a a' [H _]. exact H.
Qed.

Lemma keeps_pins_remove (sel : Annotation.t) (l : list Annotation.t) :
  keeps_pins l (remove_id sel l).
Proof.
  exists (remove_id sel l), (remove_id sel l), []. rewrite app_nil_r.
  split; [apply filter_sublist|].
  split; [apply Forall2_same_place_refl|reflexivity].
Qed.

(** The four things an event can do to the store. *)
Lemma step_store (ev : Event) (s : State) :
  annotations (step ev s) = annotations s
  \/ (exists e rect,
        ev = ImageClick e
        /\ annotations (step ev s)
           = annotations s
             ++ [newAnnotation (length (annotations s)) e rect (clock s)])
  \/ (exists sel,
        ev = SaveClick /\ selectedAnnotation s = Some sel
        /\ annotations (step ev s)
           = save_comment sel (commentText s) (clock s) (annotations s))
  \/ (exists sel,
        ev = CancelClick /\ selectedAnnotation s = Some sel
        /\ annotations (step ev s) = remove_id sel (annotations s)).
Proof.
  destruct ev; simpl; try (left; reflexivity).
  - unfold handleImageClick.
    destruct (annotationMode s), (imageRef s) as [rect|], (isDraggingRef s);
      try (left; reflexivity).
    right; left. exists e, rect. split; reflexivity.
  - left. unfold handleMouseDown. destruct (imageRef s); reflexivity.
  - left. unfold handleMouseMove.
    destruct (lastMousePosRef s), (imageRef s); try reflexivity.
    destruct (_ || _); reflexivity.
  - left. destruct (annotations s !! i); reflexivity.
  - left. destruct (popupRendered s); reflexivity.
  - destruct (popupRendered s); [|left; reflexivity].
    destruct (selectedAnnotation s) as [sel|] eqn:Hsel.
    + right; right; left. exists sel. repeat split.
      apply handleSaveComment_annotations, Hsel.
    + left. unfold handleSaveComment. rewrite Hsel. reflexivity.
  - destruct (popupRendered s); [|left; reflexivity].
    destruct (selectedAnnotation s) as [sel|] eqn:Hsel.
    + rewrite (handleCancel_annotations s sel Hsel).
      destruct (negb _ && negb _); [|left; reflexivity].
      right; right; right. exists sel. repeat split.
    + left. unfold handleCancel. rewrite Hsel. reflexivity.
  - left. destruct (commentsWithText s !! i); reflexivity.
  - left. apply elapse_annotations.
Qed.

(** Whatever happens, the pins of the store that survive keep their id,
    their coordinates and their order, and new pins come last.  Creating
    appends one pin to a store left as it was; saving keeps every pin in its
    position, with its id and coordinates, and leaves a pin with another id
    than the one under edit as it is; cancelling leaves the store as it is or
    removes the pins with the id of the pin under edit and nothing else. *)
Lemma store_operations_keep_pins_of_other_ids :
  (forall (ev : Event) (s : State),
      keeps_pins (annotations s) (annotations (step ev s)))
  /\ (forall (e : MouseEvent.t) (s : State),
      annotations (handleImageClick e s) = annotations s
      \/ exists a, annotations (handleImageClick e s) = annotations s ++ [a])
  /\ (forall (s : State),
      Forall2 (fun a a' =>
                 same_place a a'
                 /\ forall sel, selectedAnnotation s = Some sel ->
                                Annotation.id a <> Annotation.id sel -> a' = a)
              (annotations s) (annotations (handleSaveComment s)))
  /\ (forall (s : State),
      annotations (handleCancel s) = annotations s
      \/ exists sel,
          selectedAnnotation s = Some sel
          /\ annotations (handleCancel s) `sublist_of` annotations s
          /\ forall a, a ∈ annotations (handleCancel s) <->
                       a ∈ annotations s
                       /\ Annotation.id a <> Annotation.id sel).
Proof.
  repeat apply conj.
  - intros ev s.
    destruct (step_store ev s)
      as [H|[(e & rect & _ & H)|[(sel & _ & _ & H)|(sel & _ & _ & H)]]];
      rewrite H.
    + apply keeps_pins_refl.
    + apply keeps_pins_snoc.
    + apply keeps_pins_save.
    + apply keeps_pins_remove.
  - intros e s.
    destruct (step_store (ImageClick e) s)
      as [H|[(e' & rect & _ & H)|[(sel & [=] & _)|(sel & [=] & _)]]].
    + left. exact H.
    + right. eexists. exact H.
  - intros s. destruct (selectedAnnotation s) as [sel|] eqn:Hsel.
    + rewrite (handleSaveComment_annotations s sel Hsel).
      generalize (save_comment_pointwise sel (commentText s) (clock s)
                    (annotations s)).
      apply Forall2_impl. intros a a' [Hplace Hother]. split; [exact Hplace|].
      intros sel' [= <-]. exact Hother.
    + unfold handleSaveComment. rewrite Hsel.
      generalize (Forall2_same_place_refl (annotations s)).
      apply Forall2_impl. intros a a' Hplace. split; [exact Hplace|]. intros sel' [=].
  - intros s. destruct (selectedAnnotation s) as [sel|] eqn:Hsel.
    + rewrite (handleCancel_annotations s sel Hsel).
      destruct (negb _ && negb _); [|left; reflexivity].
      right. exists sel. split; [reflexivity|].
      split; [apply filter_sublist|]. intros a. apply elem_of_remove_id.
    + left. unfold handleCancel. rewrite Hsel. reflexivity.
Qed.

(** Two pins of a store whose ids are all different have different ids. *)
Lemma unique_ids_differ (l : list Annotation.t) (a b : Annotation.t) :
  NoDup (map Annotation.id l) -> a ∈ l -> b ∈ l -> a <> b ->
  Annotation.id a <> Annotation.id b.
Proof.
  induction l as [|c l IH]; simpl; intros Hnodup Ha Hb Hab.
  - inversion Ha.
  - inversion Hnodup as [|id0 ids Hc Hrest]; subst.
    apply elem_of_cons in Ha as [->|Ha]; apply elem_of_cons in Hb as [->|Hb].
    + contradiction.
    + intros Heq. apply Hc. rewrite Heq.
      apply (list_elem_of_fmap_2 Annotation.id), Hb.
    + intros Heq. apply Hc. rewrite <- Heq.
      apply (list_elem_of_fmap_2 Annotation.id), Ha.
    + apply IH; assumption.
Qed.

(** While the ids of the store are all different, the pin under edit is the
    only pin a save changes and the only pin a cancel removes. *)
Lemma unique_ids_single_target (s : State) (sel : Annotation.t) :
  NoDup (map Annotation.id (annotations s)) ->
  selectedAnnotation s = Some sel ->
  sel ∈ annotations s ->
  (forall (i : nat) (a : Annotation.t),
      annotations s !! i = Some a -> a <> sel ->
      annotations (handleSaveComment s) !! i = Some a)
  /\ (forall a : Annotation.t,
        a ∈ annotations s -> a <> sel -> a ∈ annotations (handleCancel s)).
Proof.
  intros Hnodup Hsel Hin. split.
  - intros i a Hi Hne.
    rewrite (handleSaveComment_annotations s sel Hsel), lookup_save_comment, Hi.
    simpl. apply list_elem_of_lookup_2 in Hi.
    pose proof (unique_ids_differ _ a sel Hnodup Hi Hin Hne) as Hid.
    apply Nat.eqb_neq in Hid. rewrite Hid. reflexivity.
  - intros a Ha Hne. rewrite (handleCancel_annotations s sel Hsel).
    destruct (negb _ && negb _); [|exact Ha].
    apply elem_of_remove_id. split; [exact Ha|].
    apply (unique_ids_differ _ a sel Hnodup Ha Hin Hne).
Qed.

(** C10. The store holds pin 1, the pin with id 3 at (30, 40) and, under
    edit, the new pin with id 3 at (10, 10).  Saving a comment for the new
    pin changes the text and the timestamp of the older pin with id 3 as well,
    and cancelling the edit of the new pin removes the older pin with id 3 as
    well: a pin that is not the one under edit is changed by the save and
    does not survive the cancel. *)
Theorem save_and_cancel_reach_the_twin_pin :
  annotations twin_pin_open
  = [Annotation.mk 1 30%float 40%float "" 1000%N;
     Annotation.mk 3 30%float 40%float "" 1000%N;
     Annotation.mk 3 10%float 10%float "" 1000%N]
  /\ selectedAnnotation twin_pin_open
     = Some (Annotation.mk 3 10%float 10%float "" 1000%N)
  /\ annotations
       (run [ChangeText "seam"; Elapse 5; SaveClick] twin_pin_open)
     = [Annotation.mk 1 30%float 40%float "" 1000%N;
        Annotation.mk 3 30%float 40%float "seam" 1005%N;
        Annotation.mk 3 10%float 10%float "seam" 1005%N]
  /\ annotations (run [CancelClick] twin_pin_open)
     = [Annotation.mk 1 30%float 40%float "" 1000%N].
Proof. repeat split. Qed.

End Frame.

(** ** The id of the next pin *)

Section NextId.

Import Rev2.

(** Whatever has been deleted before, a click that creates a pin gives it
    the length of the store plus one as its id. *)
Lemma next_id_is_length_plus_one (s : State) (rect : DOMRect.t) (e : MouseEvent.t) :
  annotationMode s = true -> imageRef s = Some rect -> isDraggingRef s = false ->
  map Annotation.id (annotations (handleImageClick e s))
  = map Annotation.id (annotations s) ++ [length (annotations s) + 1].
Proof.
  intros Hon Himg Hdrag.
  rewrite (handleImageClick_creates e rect s Hon Himg Hdrag). simpl.
  rewrite map_app. reflexivity.
Qed.

(** C1. The id of a deleted pin is assigned again: with pin 1 in the store
    after pin 2 was deleted, the next click creates a pin with id 2, not with
    id 3, one more than the largest id assigned so far.  And with pins 1 and
    3 in the store after pin 2 was deleted, the next click creates a second
    pin with id 3. *)
Theorem next_click_reuses_deleted_id :
  map Annotation.id (annotations pin2_cancelled) = [1]
  /\ map Annotation.id
       (annotations (step (ImageClick sample_click) pin2_cancelled))
     = [1; 2]
  /\ map Annotation.id (annotations middle_pin_cancelled) = [1; 3]
  /\ map Annotation.id
       (annotations (step (ImageClick sample_click) middle_pin_cancelled))
     = [1; 3; 3].
Proof. repeat split. Qed.

End NextId.

(** ** The highlight of a pin *)

Section Highlight.

Import Rev2.

Lemma elapse_highlight_none (d : N) (s : State) :
  highlightedId s = None -> highlightedId (elapse d s) = None.
Proof. intros H. unfold elapse. destruct (List.filter _ _); simpl; auto. Qed.

(** A pending clear that has come due clears the highlight. *)
Lemma elapse_highlight_fired (d : N) (s : State) (t : Date) :
  t ∈ timers s -> (t <= clock s + d)%N -> highlightedId (elapse d s) = None.
Proof.
  intros Hin Hdue. unfold elapse.
  destruct (List.filter (fun t0 => (t0 <=? clock s + d)%N) (timers s))
    as [|t' due] eqn:Hfilter; [|reflexivity].
  exfalso. eapply not_elem_of_nil. rewrite <- Hfilter.
  apply elem_of_filter_bool. split; [exact Hin|]. apply N.leb_le, Hdue.
Qed.

(** While no pending clear has come due the highlight stays. *)
Lemma elapse_highlight_kept (d : N) (s : State) :
  (forall t, t ∈ timers s -> (clock s + d < t)%N) ->
  highlightedId (elapse d s) = highlightedId s.
Proof.
  intros Hlater. unfold elapse.
  destruct (List.filter (fun t0 => (t0 <=? clock s + d)%N) (timers s))
    as [|t' due] eqn:Hfilter; [reflexivity|].
  assert (Hin : t' ∈ List.filter (fun t0 => (t0 <=? clock s + d)%N) (timers s)).
  { rewrite Hfilter. left. }
  apply elem_of_filter_bool in Hin as [Hin Hdue].
  apply N.leb_le in Hdue. specialize (Hlater t' Hin). lia.
Qed.

Lemma elapse_timers (d : N) (s : State) (t : Date) :
  t ∈ timers (elapse d s) <-> t ∈ timers s /\ (clock s + d < t)%N.
Proof.
  assert (Htimers : timers (elapse d s)
                    = List.filter (fun t0 => negb (t0 <=? clock s + d)%N)
                        (timers s)).
  { unfold elapse. destruct (List.filter _ _); reflexivity. }
  rewrite Htimers, elem_of_filter_bool, negb_true_iff, N.leb_gt. reflexivity.
Qed.

(** Only a selection in the comment list and the passing of time touch the
    highlight, the timers and the clock. *)
Lemma step_keeps_highlight (ev : Event) (s : State) :
  is_list_click ev = false -> is_elapse ev = false ->
  highlightedId (step ev s) = highlightedId s
  /\ timers (step ev s) = timers s
  /\ clock (step ev s) = clock s.
Proof.
  intros Hlist Hwait. destruct ev; try discriminate; simpl.
  - unfold handleImageClick.
    destruct (annotationMode s), (imageRef s), (isDraggingRef s);
      repeat split.
  - unfold handleMouseDown. destruct (imageRef s); repeat split.
  - unfold handleMouseMove.
    destruct (lastMousePosRef s), (imageRef s); try (repeat split; fail).
    destruct (_ || _); repeat split.
  - repeat split.
  - destruct (annotations s !! i); repeat split.
  - destruct (popupRendered s); repeat split.
  - unfold handleSaveComment.
    destruct (popupRendered s), (selectedAnnotation s); repeat split.
  - unfold handleCancel.
    destruct (popupRendered s), (selectedAnnotation s);
      try (repeat split; fail).
    destruct (negb _ && negb _); repeat split.
  - repeat split.
  - repeat split.
  - repeat split.
  - repeat split.
Qed.

(** A highlight whose clear is due at [due] is gone once the clock has
    reached [due], unless an entry of the comment list is selected in
    between. *)
Lemma pending_clear_fires (due : Date) (evs : list Event) (s : State) :
  forallb (fun ev => negb (is_list_click ev)) evs = true ->
  highlightedId s = None \/ (due ∈ timers s /\ (clock s < due)%N) ->
  (highlightedId (run evs s) = None
   \/ (due ∈ timers (run evs s) /\ (clock (run evs s) < due)%N))
  /\ clock (run evs s) = (clock s + elapsed evs)%N.
Proof.
  revert s. induction evs as [|ev evs IH]; intros s Hevs Hinv.
  - simpl. rewrite N.add_0_r. auto.
  - simpl in Hevs. apply andb_prop in Hevs as [Hev Hevs].
    apply negb_true_iff in Hev. rewrite run_cons.
    destruct (is_elapse ev) eqn:Hwait.
    + destruct ev; try discriminate. simpl step. simpl elapsed.
      destruct (IH (elapse d s) Hevs) as [Hend Hclock].
      * destruct Hinv as [Hnone|[Hin Hlt]].
        -- left. apply elapse_highlight_none, Hnone.
        -- destruct (decide (due <= clock s + d)%N) as [Hdue|Hnot].
           ++ left. apply (elapse_highlight_fired d s due Hin Hdue).
           ++ right. rewrite elapse_clock. split; [|lia].
              apply elapse_timers. split; [exact Hin|lia].
      * split; [exact Hend|]. rewrite Hclock, elapse_clock. lia.
    + destruct (step_keeps_highlight ev s Hev Hwait) as (Hh & Ht & Hc).
      destruct (IH (step ev s) Hevs) as [Hend Hclock].
      * rewrite Hh, Ht, Hc. exact Hinv.
      * split; [exact Hend|]. rewrite Hclock, Hc.
        destruct ev; try discriminate; reflexivity.
Qed.

Lemma step_ListClick (s : State) (i : nat) (a : Annotation.t) :
  commentsWithText s !! i = Some a ->
  step (ListClick i) s = setIsCommentsPanelOpen false (handleListClick a s).
Proof. intros Hi. simpl. rewrite Hi. reflexivity. Qed.

(** C8, as stated, fails.  Entry 1 is selected; a second and a half later
    entry 2 is selected; half a second later the clear scheduled for entry 1
    fires and the highlight of pin 2 is gone, a second and a half before its
    own delay is over.  And selecting entry 2 while pin 1 is highlighted
    takes the highlight from pin 1. *)
Lemma older_clear_ends_newer_highlight_early :
  ~ (forall (s : State) (i : nat) (a : Annotation.t) (d : N),
        reachable s ->
        commentsWithText s !! i = Some a ->
        (d < HIGHLIGHT_DELAY)%N ->
        highlightedId (run [ListClick i; Elapse d] s) = Some (Annotation.id a))
  /\ ~ (forall (s : State) (i : nat) (a b : Annotation.t),
        reachable s ->
        commentsWithText s !! i = Some a ->
        Annotation.id b <> Annotation.id a ->
        highlighted (step (ListClick i) s) b = highlighted s b).
Proof.
  split; intros H.
  - specialize (H first_entry_selected 1
                  (Annotation.mk 2 30%float 40%float "b" 1000%N) 500%N).
    discriminate H; try reflexivity.
    apply reachable_run, reachable_run, reachable_run, reachable_initial.
  - specialize (H (step (ListClick 0) two_comments) 1
                  (Annotation.mk 2 30%float 40%float "b" 1000%N)
                  (Annotation.mk 1 30%float 40%float "a" 1000%N)).
    discriminate H; try reflexivity; try (simpl; lia).
    apply reachable_step, reachable_run, reachable_run, reachable_initial.
Qed.

(** C8, amended.  Selecting a comment entry makes the id of its pin the
    highlighted id, so that this pin is highlighted and a pin with another id
    is not, whether it was before or not; the store is not touched; a clear is scheduled two seconds later, after the clears
    that are already pending, and none of those is cancelled.  Unless another
    entry is selected in between, the highlight is gone once two seconds have
    passed.  It lasts as long as no pending clear comes due, so the full two
    seconds when no older clear is pending; an older clear that comes due
    earlier ends it earlier. *)
Theorem list_click_highlights_until_a_clear_fires
    (s : State) (i : nat) (a : Annotation.t) :
  commentsWithText s !! i = Some a ->
  highlightedId (step (ListClick i) s) = Some (Annotation.id a)
  /\ highlighted (step (ListClick i) s) a = true
  /\ (forall b, Annotation.id b <> Annotation.id a ->
                highlighted (step (ListClick i) s) b = false)
  /\ annotations (step (ListClick i) s) = annotations s
  /\ timers (step (ListClick i) s)
     = timers s ++ [(clock s + HIGHLIGHT_DELAY)%N]
  /\ (forall evs,
        forallb (fun ev => negb (is_list_click ev)) evs = true ->
        (HIGHLIGHT_DELAY <= elapsed evs)%N ->
        highlightedId (run (ListClick i :: evs) s) = None)
  /\ (forall d,
        (d < HIGHLIGHT_DELAY)%N ->
        (forall t, t ∈ timers s -> (clock s + d < t)%N) ->
        highlightedId (run [ListClick i; Elapse d] s) = Some (Annotation.id a))
  /\ (forall d t,
        t ∈ timers s -> (t <= clock s + d)%N ->
        highlightedId (run [ListClick i; Elapse d] s) = None).
Proof.
  intros Hi. pose proof (step_ListClick s i a Hi) as Hstep.
  repeat apply conj; try (rewrite Hstep; reflexivity).
  - rewrite Hstep. unfold highlighted. simpl. apply Nat.eqb_refl.
  - intros b Hid. rewrite Hstep. unfold highlighted. simpl.
    apply Nat.eqb_neq. intros Heq. apply Hid. symmetry. exact Heq.
  - intros evs Hevs Hlong. rewrite run_cons, Hstep.
    destruct (pending_clear_fires (clock s + HIGHLIGHT_DELAY)%N evs
                (setIsCommentsPanelOpen false (handleListClick a s)) Hevs)
      as [[Hnone|[_ Hlt]] Hclock].
    + right. simpl. split.
      * apply elem_of_app. right. apply list_elem_of_singleton. reflexivity.
      * unfold HIGHLIGHT_DELAY. lia.
    + exact Hnone.
    + rewrite Hclock in Hlt. simpl in Hlt. lia.
  - intros d Hshort Hlater. rewrite run_cons, Hstep. simpl run.
    rewrite elapse_highlight_kept; [reflexivity|].
    simpl. intros t Ht. apply elem_of_app in Ht as [Ht|Ht].
    + apply Hlater, Ht.
    + apply list_elem_of_singleton in Ht. subst t. lia.
  - intros d t Hin Hdue. rewrite run_cons, Hstep. simpl run.
    apply (elapse_highlight_fired d _ t); simpl; [|exact Hdue].
    apply elem_of_app. left. exact Hin.
Qed.

(** The theorem at the first entry of a list of two comments. *)
Lemma list_click_highlights_until_a_clear_fires_witness :
  commentsWithText two_comments !! 0
  = Some (Annotation.mk 1 30%float 40%float "a" 1000%N)
  /\ highlightedId (step (ListClick 0) two_comments) = Some 1
  /\ highlightedId (run [ListClick 0; Elapse 1999] two_comments) = Some 1
  /\ highlightedId (run [ListClick 0; Elapse 2000] two_comments) = None.
Proof.
  split; [reflexivity|].
  destruct (list_click_highlights_until_a_clear_fires two_comments 0
              (Annotation.mk 1 30%float 40%float "a" 1000%N) eq_refl)
    as (Hset & _ & _ & _ & _ & Hgone & Hkept & _).
  split; [exact Hset|]. split.
  - apply (Hkept 1999%N); [reflexivity|]. intros t Ht. inversion Ht.
  - apply (Hgone [Elapse 2000]); [reflexivity|]. discriminate.
Defined.

End Highlight.

(** ** The first revision does the same to the store *)

Section FirstRevision.

Lemma rev1_handleSaveComment (s1 : Rev1.State) (s2 : Rev2.State) :
  same_editor s1 s2 ->
  same_editor (Rev1.handleSaveComment s1) (Rev2.handleSaveComment s2)
  /\ (Rev1.selectedAnnotation s1 <> None ->
      Rev1.isModalOpen (Rev1.handleSaveComment s1) = false).
Proof.
  intros Hsame. pose proof Hsame as (Hstore & Hsel & Hdraft & Hclock).
  unfold Rev1.handleSaveComment, Rev2.handleSaveComment. rewrite <- Hsel.
  destruct (Rev1.selectedAnnotation s1) as [sel|] eqn:Hs1.
  - unfold same_editor. simpl. rewrite Hstore, Hdraft, Hclock.
    repeat split.
  - split; [exact Hsame|]. intros Hne. contradiction.
Qed.

Lemma rev1_handleCancel (s1 : Rev1.State) (s2 : Rev2.State) :
  same_editor s1 s2 ->
  same_editor (Rev1.handleCancel s1) (Rev2.handleCancel s2)
  /\ (Rev1.selectedAnnotation s1 <> None ->
      Rev1.isModalOpen (Rev1.handleCancel s1) = false).
Proof.
  intros Hsame. pose proof Hsame as (Hstore & Hsel & Hdraft & Hclock).
  unfold Rev1.handleCancel, Rev2.handleCancel. rewrite <- Hsel, <- Hdraft.
  destruct (Rev1.selectedAnnotation s1) as [sel|] eqn:Hs1.
  - unfold same_editor.
    destruct (negb _ && negb _); simpl; rewrite ?Hstore, ?Hclock;
      repeat split; assumption.
  - split; [exact Hsame|]. intros Hne. contradiction.
Qed.

Lemma rev1_handleListClick (a : Annotation.t) (s1 : Rev1.State) (s2 : Rev2.State) :
  Rev1.highlightedId (Rev1.handleListClick a s1)
  = Rev2.highlightedId (Rev2.handleListClick a s2)
  /\ Rev1.timers (Rev1.handleListClick a s1)
     = Rev1.timers s1 ++ [(Rev1.clock s1 + HIGHLIGHT_DELAY)%N].
Proof. split; reflexivity. Qed.

(** The container click of the first revision does not look at the drag
    flag: its mouse handlers are declared but not attached to any element. *)
Lemma rev1_onClick_skips_drag_flag (e : MouseEvent.t) (b : bool) (s : Rev1.State) :
  Rev1.onClick e (Rev1.setIsDraggingRef b s)
  = Rev1.setIsDraggingRef b (Rev1.onClick e s).
Proof.
  unfold Rev1.onClick. simpl.
  destruct (Rev1.annotationMode s), (Rev1.imageRef s); reflexivity.
Qed.

End FirstRevision.

(** ** The editor *)

Section Editor.

Import Rev2.



(** X2. Pressing save twice is pressing it once, and so is pressing cancel
    twice: the first press closes the editor and the second finds no pin
    under edit.  This holds for the handlers of both revisions and for the
    buttons of the second. *)
Theorem save_and_cancel_are_idempotent :
  (forall s : State,
      handleSaveComment (handleSaveComment s) = handleSaveComment s
      /\ handleCancel (handleCancel s) = handleCancel s
      /\ run [SaveClick; SaveClick] s = run [SaveClick] s
      /\ run [CancelClick; CancelClick] s = run [CancelClick] s
      /\ run [SaveClick; CancelClick] s = run [SaveClick] s
      /\ run [CancelClick; SaveClick] s = run [CancelClick] s)
  /\ (forall s : Rev1.State,
      Rev1.handleSaveComment (Rev1.handleSaveComment s)
      = Rev1.handleSaveComment s
      /\ Rev1.handleCancel (Rev1.handleCancel s) = Rev1.handleCancel s).
Proof.
  split; intros s.
  - assert (Hsave : selectedAnnotation (handleSaveComment s) = None
                    \/ handleSaveComment s = s).
    { unfold handleSaveComment. destruct (selectedAnnotation s) eqn:E; auto. }
    assert (Hcancel : selectedAnnotation (handleCancel s) = None
                      \/ handleCancel s = s).
    { unfold handleCancel. destruct (selectedAnnotation s) eqn:E; auto. }
    assert (Hrs : forall s', selectedAnnotation s' = None ->
                             popupRendered s' = false).
    { intros s' H. unfold popupRendered. rewrite H.
      destruct (popupPosition s'); reflexivity. }
    assert (Hns : forall s', selectedAnnotation s' = None ->
                             handleSaveComment s' = s').
    { intros s' H. unfold handleSaveComment. rewrite H. reflexivity. }
    assert (Hnc : forall s', selectedAnnotation s' = None ->
                             handleCancel s' = s').
    { intros s' H. unfold handleCancel. rewrite H. reflexivity. }
    repeat apply conj.
    + destruct Hsave as [H|H]; [apply Hns, H|rewrite !H; reflexivity].
    + destruct Hcancel as [H|H]; [apply Hnc, H|rewrite !H; reflexivity].
    + simpl. destruct (popupRendered s) eqn:Hr; [|rewrite Hr; reflexivity].
      destruct Hsave as [H|H].
      * rewrite (Hrs _ H). reflexivity.
      * rewrite H, Hr. exact H.
    + simpl. destruct (popupRendered s) eqn:Hr; [|rewrite Hr; reflexivity].
      destruct Hcancel as [H|H].
      * rewrite (Hrs _ H). reflexivity.
      * rewrite H, Hr. exact H.
    + simpl. destruct (popupRendered s) eqn:Hr; [|rewrite Hr; reflexivity].
      assert (H : selectedAnnotation (handleSaveComment s) = None).
      { unfold handleSaveComment, popupRendered in *.
        destruct (popupPosition s), (selectedAnnotation s);
          try discriminate; reflexivity. }
      rewrite (Hrs _ H). reflexivity.
    + simpl. destruct (popupRendered s) eqn:Hr; [|rewrite Hr; reflexivity].
      assert (H : selectedAnnotation (handleCancel s) = None).
      { unfold handleCancel, popupRendered in *.
        destruct (popupPosition s), (selectedAnnotation s);
          try discriminate; reflexivity. }
      rewrite (Hrs _ H). reflexivity.
  - split.
    + unfold Rev1.handleSaveComment.
      destruct (Rev1.selectedAnnotation s) eqn:E; simpl; [reflexivity|].
      rewrite E. reflexivity.
    + unfold Rev1.handleCancel.
      destruct (Rev1.selectedAnnotation s) eqn:E; simpl; [reflexivity|].
      rewrite E. reflexivity.
Qed.

End Editor.

(** ** Comments and the comment list *)

Section Comments.

Import Rev2.

Lemma with_text_snoc_new (l : list Annotation.t) (count : nat)
    (e : MouseEvent.t) (rect : DOMRect.t) (now : Date) :
  with_text (l ++ [newAnnotation count e rect now]) = with_text l.
Proof.
  unfold with_text. rewrite List.filter_app. simpl. apply app_nil_r.
Qed.

(** X3. Only saving and cancelling change the comment list: after any other
    event, a click that creates a pin included, the list of comments and
    their count are what they were. *)
Theorem comment_list_changes_on_save_and_cancel_only (ev : Event) (s : State) :
  is_save ev = false -> is_cancel ev = false ->
  commentsWithText (step ev s) = commentsWithText s
  /\ commentsCount (step ev s) = commentsCount s.
Proof.
  intros Hsave Hcancel.
  assert (H : commentsWithText (step ev s) = commentsWithText s).
  { unfold commentsWithText.
    destruct (step_store ev s)
      as [H|[(e & rect & _ & H)|[(sel & -> & _)|(sel & -> & _)]]];
      try discriminate; rewrite H; [reflexivity|].
    apply with_text_snoc_new. }
  split; [exact H|]. unfold commentsCount. rewrite H. reflexivity.
Qed.

(** The theorem at a click that creates pin 3 beside two commented pins. *)
Lemma comment_list_changes_on_save_and_cancel_only_witness :
  length (annotations (step (ImageClick sample_click) two_comments)) = 3
  /\ commentsCount (step (ImageClick sample_click) two_comments) = 2.
Proof.
  split; [reflexivity|].
  apply (comment_list_changes_on_save_and_cancel_only
           (ImageClick sample_click) two_comments eq_refl eq_refl).
Defined.

(** X4. Saving a draft that is not empty puts the pin under edit into the
    comment list, with the draft as its text and its id and place as they
    were; saving an empty draft leaves no pin with the id of the pin under
    edit in the comment list, even if it was listed before. *)
Theorem save_lists_pin_iff_draft_not_empty (s : State) (sel : Annotation.t) :
  selectedAnnotation s = Some sel ->
  sel ∈ annotations s ->
  (commentText s <> "" ->
   exists a,
     a ∈ commentsWithText (handleSaveComment s)
     /\ Annotation.text a = commentText s
     /\ same_place sel a)
  /\ (commentText s = "" ->
      forall a, a ∈ commentsWithText (handleSaveComment s) ->
                Annotation.id a <> Annotation.id sel).
Proof.
  intros Hsel Hin. unfold commentsWithText.
  rewrite (handleSaveComment_annotations s sel Hsel). split.
  - intros Hdraft. exists (with_comment (commentText s) (clock s) sel).
    split; [|split; [reflexivity|repeat split]].
    apply elem_of_with_text. split; [|exact Hdraft].
    apply list_elem_of_lookup in Hin as [i Hi].
    apply (list_elem_of_lookup_2 _ i).
    rewrite lookup_save_comment, Hi. simpl. rewrite Nat.eqb_refl. reflexivity.
  - intros Hdraft a Ha. apply elem_of_with_text in Ha as [Ha Htext].
    apply list_elem_of_lookup in Ha as [i Hi].
    rewrite lookup_save_comment in Hi.
    destruct (annotations s !! i) as [b|]; [|discriminate].
    simpl in Hi. injection Hi as <-.
    destruct (Annotation.id b =? Annotation.id sel) eqn:Hid.
    + exfalso. apply Htext. simpl. exact Hdraft.
    + apply Nat.eqb_neq, Hid.
Qed.

(** The theorem at the draft typed for pin 1. *)
Lemma save_lists_pin_iff_draft_not_empty_witness :
  selectedAnnotation draft_typed
  = Some (Annotation.mk 1 30%float 40%float "" 1000%N)
  /\ exists a,
      a ∈ commentsWithText (handleSaveComment draft_typed)
      /\ Annotation.text a = "abc".
Proof.
  split; [reflexivity|].
  destruct (save_lists_pin_iff_draft_not_empty draft_typed
              (Annotation.mk 1 30%float 40%float "" 1000%N) eq_refl)
    as [Hlisted _].
  - apply list_elem_of_singleton. reflexivity.
  - destruct Hlisted as (a & Ha & Htext & _); [discriminate|].
    exists a. split; assumption.
Defined.

(** X5. Open the editor of a pin from its marker, type a text, save, and
    open the editor of the same marker again: the editor shows the text that
    was saved, and the pin at that position of the store carries it, with the
    id and the place it had. *)
Theorem saved_comment_is_shown_on_reopening
    (s : State) (i : nat) (a : Annotation.t) (rect rect' : DOMRect.t)
    (t : string) :
  annotations s !! i = Some a ->
  exists a',
    annotations
      (run [MarkerClick i rect; ChangeText t; SaveClick; MarkerClick i rect'] s)
    !! i = Some a'
    /\ selectedAnnotation
         (run [MarkerClick i rect; ChangeText t; SaveClick; MarkerClick i rect'] s)
       = Some a'
    /\ commentText
         (run [MarkerClick i rect; ChangeText t; SaveClick; MarkerClick i rect'] s)
       = t
    /\ Annotation.text a' = t
    /\ same_place a a'.
Proof.
  intros Hi. exists (with_comment t (clock s) a).
  assert (Hlook : save_comment a t (clock s) (annotations s) !! i
                  = Some (with_comment t (clock s) a)).
  { rewrite lookup_save_comment, Hi. simpl. rewrite Nat.eqb_refl. reflexivity. }
  simpl. rewrite Hi. simpl. rewrite Hlook. simpl.
  repeat split. exact Hlook.
Qed.

(** The theorem at the marker of the first of two commented pins. *)
Lemma saved_comment_is_shown_on_reopening_witness :
  annotations two_comments !! 0
  = Some (Annotation.mk 1 30%float 40%float "a" 1000%N)
  /\ exists a',
      selectedAnnotation
        (run [MarkerClick 0 sample_rect; ChangeText "loose seam"; SaveClick;
              MarkerClick 0 sample_rect] two_comments)
      = Some a'
      /\ Annotation.text a' = "loose seam".
Proof.
  split; [reflexivity|].
  destruct (saved_comment_is_shown_on_reopening two_comments 0
              (Annotation.mk 1 30%float 40%float "a" 1000%N)
              sample_rect sample_rect "loose seam" eq_refl)
    as (a' & _ & Hsel & _ & Htext & _).
  exists a'. split; assumption.
Defined.

(** X6. Open the editor of a pin from its marker, type a draft and cancel:
    unless the pin has no text and the draft is empty, the store is what it
    was, the editor is closed, and opening the marker again shows the text of
    the pin, not the draft. *)
Theorem cancelled_draft_is_discarded
    (s : State) (i : nat) (a : Annotation.t) (rect rect' : DOMRect.t)
    (t : string) :
  annotations s !! i = Some a ->
  Annotation.text a <> "" \/ t <> "" ->
  annotations (run [MarkerClick i rect; ChangeText t; CancelClick] s)
  = annotations s
  /\ selectedAnnotation (run [MarkerClick i rect; ChangeText t; CancelClick] s)
     = None
  /\ popupRendered (run [MarkerClick i rect; ChangeText t; CancelClick] s)
     = false
  /\ commentText
       (run [MarkerClick i rect; ChangeText t; CancelClick; MarkerClick i rect'] s)
     = Annotation.text a.
Proof.
  intros Hi Hsome.
  assert (Hkeep : negb (truthy (Annotation.text a)) && negb (truthy t) = false).
  { destruct Hsome as [H|H]; apply truthy_true in H; rewrite H; simpl;
      [reflexivity|apply andb_false_r]. }
  simpl. rewrite Hi. simpl. unfold handleCancel. simpl. rewrite Hkeep. simpl.
  rewrite Hi. repeat split.
Qed.

(** The theorem at the marker of the first of two commented pins. *)
Lemma cancelled_draft_is_discarded_witness :
  annotations two_comments !! 0
  = Some (Annotation.mk 1 30%float 40%float "a" 1000%N)
  /\ annotations
       (run [MarkerClick 0 sample_rect; ChangeText "zz"; CancelClick] two_comments)
     = annotations two_comments.
Proof.
  split; [reflexivity|].
  apply (cancelled_draft_is_discarded two_comments 0
           (Annotation.mk 1 30%float 40%float "a" 1000%N)
           sample_rect sample_rect "zz" eq_refl).
  left. discriminate.
Defined.

(** X7. Opening the editor of a commented pin from its marker and saving
    without touching the text leaves the store as it is, provided no other
    pin of the store carries the id of that pin. *)
Theorem saving_unchanged_comment_changes_nothing
    (s : State) (i : nat) (a : Annotation.t) (rect : DOMRect.t) :
  annotations s !! i = Some a ->
  Annotation.text a <> "" ->
  (forall b, b ∈ annotations s -> Annotation.id b = Annotation.id a -> b = a) ->
  annotations (run [MarkerClick i rect; SaveClick] s) = annotations s.
Proof.
  intros Hi Htext Huniq. simpl. rewrite Hi. simpl.
  unfold save_comment. rewrite <- (map_id (annotations s)) at 2.
  apply map_ext_in. intros b Hb. apply list_elem_of_In in Hb.
  destruct (Annotation.id b =? Annotation.id a) eqn:Hid; [|reflexivity].
  apply Nat.eqb_eq in Hid. rewrite (Huniq b Hb Hid).
  apply truthy_true in Htext. unfold with_comment. rewrite Htext.
  destruct a; reflexivity.
Qed.

(** The theorem at the marker of the first of two commented pins. *)
Lemma saving_unchanged_comment_changes_nothing_witness :
  annotations two_comments !! 0
  = Some (Annotation.mk 1 30%float 40%float "a" 1000%N)
  /\ annotations (run [MarkerClick 0 sample_rect; SaveClick] two_comments)
     = annotations two_comments.
Proof.
  split; [reflexivity|].
  apply (saving_unchanged_comment_changes_nothing two_comments 0
           (Annotation.mk 1 30%float 40%float "a" 1000%N) sample_rect eq_refl).
  - discriminate.
  - assert (Hstore : annotations two_comments
                     = [Annotation.mk 1 30%float 40%float "a" 1000%N;
                        Annotation.mk 2 30%float 40%float "b" 1000%N])
      by (vm_compute; reflexivity).
    rewrite Hstore. intros b Hb Hid.
    apply elem_of_cons in Hb as [->|Hb]; [reflexivity|].
    apply list_elem_of_singleton in Hb. subst b. discriminate Hid.
Defined.

End Comments.

(** ** The store over time *)

Section Store.

Import Rev2.

(** X8. Only cancelling removes pins: after any other event every pin is
    still at its position in the store, with its id and its place, so the
    store has not become shorter. *)
Theorem only_cancel_removes_pins (ev : Event) (s : State) :
  is_cancel ev = false ->
  (forall (i : nat) (a : Annotation.t),
      annotations s !! i = Some a ->
      exists a', annotations (step ev s) !! i = Some a' /\ same_place a a')
  /\ length (annotations s) <= length (annotations (step ev s)).
Proof.
  intros Hcancel.
  destruct (step_store ev s)
    as [H|[(e & rect & _ & H)|[(sel & _ & _ & H)|(sel & -> & _)]]];
    try discriminate; rewrite H; split.
  - intros i a Hi. exists a. split; [exact Hi|apply same_place_refl].
  - reflexivity.
  - intros i a Hi. exists a.
    split; [apply lookup_app_l_Some, Hi|apply same_place_refl].
  - rewrite length_app. lia.
  - intros i a Hi. rewrite lookup_save_comment, Hi. simpl.
    eexists. split; [reflexivity|].
    destruct (_ =? _); [repeat split|apply same_place_refl].
  - rewrite length_save_comment. reflexivity.
Qed.

(** The theorem at a save: pin 1 stays at position 0. *)
Lemma only_cancel_removes_pins_witness :
  exists a',
    annotations (step SaveClick draft_typed) !! 0 = Some a'
    /\ same_place (Annotation.mk 1 30%float 40%float "" 1000%N) a'.
Proof.
  destruct (only_cancel_removes_pins SaveClick draft_typed eq_refl)
    as [Hkeep _].
  apply (Hkeep 0). reflexivity.
Defined.

Lemma filter_keeps_all {A} (f : A -> bool) (l : list A) :
  (forall x, x ∈ l -> f x = true) -> List.filter f l = l.
Proof.
  induction l as [|x l IH]; intros Hall; [reflexivity|]. simpl.
  rewrite (Hall x) by left. f_equal. apply IH.
  intros y Hy. apply Hall. right. exact Hy.
Qed.

(** Removing the pins with id n from a store numbered 1, ..., n removes the
    last pin and nothing else. *)
Lemma well_numbered_remove_last (sel : Annotation.t) (l : list Annotation.t) :
  well_numbered l -> Annotation.id sel = length l ->
  well_numbered (remove_id sel l).
Proof.
  unfold well_numbered, remove_id. intros Hl Hsel.
  destruct l as [|a0 l0] using rev_ind; [reflexivity|]. clear IHl0.
  rewrite length_app, map_app, seq_app in Hl. simpl in Hl.
  apply app_inj_tail in Hl as [Hl0 Ha0].
  rewrite length_app in Hsel. simpl in Hsel.
  rewrite List.filter_app. simpl.
  replace (Annotation.id a0 =? Annotation.id sel) with true
    by (symmetry; apply Nat.eqb_eq; lia).
  simpl. rewrite app_nil_r.
  rewrite filter_keeps_all; [exact Hl0|].
  intros x Hx. apply negb_true_iff, Nat.eqb_neq.
  apply (list_elem_of_fmap_2 Annotation.id) in Hx.
  change (Annotation.id x ∈ map Annotation.id l0) in Hx.
  rewrite Hl0 in Hx. apply elem_of_seq in Hx. lia.
Qed.

(** X9. While the ids of the store are 1, ..., n in order, they stay so, and
    therefore without repetition, after every event, provided that a cancel
    comes only while the pin under edit is the newest one (the pin with id
    n): creating appends id n + 1, saving keeps the ids, and cancelling the
    newest pin leaves 1, ..., n - 1. *)
Theorem numbering_survives_cancel_of_newest_pin (ev : Event) (s : State) :
  well_numbered (annotations s) ->
  (is_cancel ev = true ->
   forall sel, selectedAnnotation s = Some sel ->
               Annotation.id sel = length (annotations s)) ->
  well_numbered (annotations (step ev s))
  /\ NoDup (map Annotation.id (annotations (step ev s))).
Proof.
  intros Hnum Hnewest.
  assert (H : well_numbered (annotations (step ev s))).
  { destruct (step_store ev s)
      as [H|[(e & rect & _ & H)|[(sel & _ & _ & H)|(sel & -> & Hsel & H)]]];
      rewrite H.
    - exact Hnum.
    - unfold well_numbered in *.
      rewrite map_app, length_app, seq_app, Hnum. simpl.
      do 2 f_equal. lia.
    - unfold well_numbered in *. rewrite length_save_comment, <- Hnum.
      unfold save_comment. rewrite map_map. apply map_ext.
      intros a. destruct (_ =? _); reflexivity.
    - apply well_numbered_remove_last; [exact Hnum|].
      apply Hnewest; [reflexivity|exact Hsel]. }
  split; [exact H|]. rewrite H. apply NoDup_seq.
Qed.

(** The theorem at the cancel of pin 2, the newest of two pins. *)
Lemma numbering_survives_cancel_of_newest_pin_witness :
  well_numbered
    (annotations (run [ImageClick sample_click] two_comments))
  /\ well_numbered
       (annotations
          (step CancelClick (run [ImageClick sample_click] two_comments))).
Proof.
  assert (Hnum : well_numbered
                   (annotations (run [ImageClick sample_click] two_comments)))
    by (vm_compute; reflexivity).
  split; [exact Hnum|].
  apply (numbering_survives_cancel_of_newest_pin CancelClick
           (run [ImageClick sample_click] two_comments) Hnum).
  intros _ sel Hsel.
  assert (Hs : selectedAnnotation (run [ImageClick sample_click] two_comments)
               = Some (Annotation.mk 3 30%float 40%float "" 1000%N))
    by (vm_compute; reflexivity).
  rewrite Hs in Hsel. injection Hsel as <-. vm_compute. reflexivity.
Defined.

(** The number of a pin is never smaller than its position counted from
    [k]: filtering only moves pins towards the front. *)
Lemma filter_keeps_id_bound (f : Annotation.t -> bool) (l : list Annotation.t)
    (k : nat) :
  (forall i a, l !! i = Some a -> i + k <= Annotation.id a) ->
  forall i a, List.filter f l !! i = Some a -> i + k <= Annotation.id a.
Proof.
  revert k. induction l as [|b l IH]; intros k Hl i a Hi; [discriminate|].
  assert (Hl' : forall j c, l !! j = Some c -> j + S k <= Annotation.id c).
  { intros j c Hj. specialize (Hl (S j) c Hj). lia. }
  simpl in Hi. destruct (f b).
  - destruct i as [|i]; simpl in Hi.
    + injection Hi as <-. apply (Hl 0). reflexivity.
    + specialize (IH (S k) Hl' i a Hi). lia.
  - specialize (IH (S k) Hl' i a Hi). lia.
Qed.

(** X10. In every reachable state the id of a pin is at least its position
    in the store counted from one; in particular every id is positive. *)
Theorem pin_id_at_least_position (s : State) (i : nat) (a : Annotation.t) :
  reachable s ->
  annotations s !! i = Some a ->
  i + 1 <= Annotation.id a /\ 1 <= Annotation.id a.
Proof.
  intros Hs Hi.
  enough (H : i + 1 <= Annotation.id a) by (split; [exact H|lia]).
  revert i a Hi. induction Hs as [now|ev s IH] using reachable_ind;
    [discriminate|].
  intros i a.
  destruct (step_store ev s)
    as [H|[(e & rect & _ & H)|[(sel & _ & _ & H)|(sel & _ & _ & H)]]];
    rewrite H.
  - apply IH.
  - intros Hi. apply lookup_snoc_Some in Hi as [[_ Hi]|[-> <-]].
    + apply IH, Hi.
    + simpl. lia.
  - rewrite lookup_save_comment.
    destruct (annotations s !! i) as [b|] eqn:Hb; [|discriminate].
    simpl. intros [= <-]. specialize (IH i b Hb).
    destruct (_ =? _); exact IH.
  - apply filter_keeps_id_bound. exact IH.
Qed.

(** The theorem at the store with ids 1, 3, 3. *)
Lemma pin_id_at_least_position_witness :
  reachable twin_pin_open
  /\ annotations twin_pin_open !! 1
     = Some (Annotation.mk 3 30%float 40%float "" 1000%N)
  /\ 1 + 1 <= Annotation.id (Annotation.mk 3 30%float 40%float "" 1000%N).
Proof.
  assert (Hs : reachable twin_pin_open)
    by (apply reachable_run, reachable_run, reachable_run, reachable_initial).
  assert (Hi : annotations twin_pin_open !! 1
               = Some (Annotation.mk 3 30%float 40%float "" 1000%N))
    by (vm_compute; reflexivity).
  split; [exact Hs|split; [exact Hi|]].
  apply (pin_id_at_least_position twin_pin_open 1 _ Hs Hi).
Defined.

Lemma step_clock (ev : Event) (s : State) : (clock s <= clock (step ev s))%N.
Proof.
  destruct (is_elapse ev) eqn:Hwait.
  - destruct ev; try discriminate. simpl. rewrite elapse_clock. lia.
  - destruct (is_list_click ev) eqn:Hlist.
    + destruct ev; try discriminate. simpl.
      destruct (commentsWithText s !! i); reflexivity.
    + destruct (step_keeps_highlight ev s Hlist Hwait) as (_ & _ & ->).
      reflexivity.
Qed.

(** X12. In every reachable state no pin carries a timestamp later than the
    clock: a pin is stamped with the current time when it is created and
    when its first comment is saved, and time does not run backwards. *)
Theorem timestamps_not_in_the_future (s : State) (a : Annotation.t) :
  reachable s -> a ∈ annotations s -> (Annotation.timestamp a <= clock s)%N.
Proof.
  intros Hs. revert a. induction Hs as [now|ev s IH] using reachable_ind.
  - intros a Ha. inversion Ha.
  - intros a. pose proof (step_clock ev s) as Hclock.
    destruct (step_store ev s)
      as [H|[(e & rect & -> & H)|[(sel & -> & _ & H)|(sel & -> & _ & H)]]];
      rewrite H.
    + intros Ha. specialize (IH a Ha). lia.
    + intros Ha. apply elem_of_app in Ha as [Ha|Ha].
      * specialize (IH a Ha). lia.
      * apply list_elem_of_singleton in Ha. subst a. simpl. exact Hclock.
    + intros Ha. apply list_elem_of_lookup in Ha as [i Hi].
      rewrite lookup_save_comment in Hi.
      destruct (annotations s !! i) as [b|] eqn:Hb; [|discriminate].
      simpl in Hi. injection Hi as <-.
      apply list_elem_of_lookup_2 in Hb. specialize (IH b Hb).
      destruct (_ =? _); [|exact (N.le_trans _ _ _ IH Hclock)]. simpl.
      destruct (truthy _); [exact (N.le_trans _ _ _ IH Hclock)|exact Hclock].
    + intros Ha. apply elem_of_remove_id in Ha as [Ha _].
      exact (N.le_trans _ _ _ (IH a Ha) Hclock).
Qed.

(** The theorem at a pin saved 7 ms after its creation. *)
Lemma timestamps_not_in_the_future_witness :
  reachable (run [Elapse 7; SaveClick; Elapse 3] one_pin_open)
  /\ (Annotation.timestamp (Annotation.mk 1 30%float 40%float "" 1007%N)
      <= clock (run [Elapse 7; SaveClick; Elapse 3] one_pin_open))%N.
Proof.
  assert (Hs : reachable (run [Elapse 7; SaveClick; Elapse 3] one_pin_open))
    by (apply reachable_run, reachable_run, reachable_run, reachable_initial).
  split; [exact Hs|].
  apply (timestamps_not_in_the_future
           (run [Elapse 7; SaveClick; Elapse 3] one_pin_open)
           (Annotation.mk 1 30%float 40%float "" 1007%N) Hs).
  apply list_elem_of_singleton. vm_compute. reflexivity.
Defined.

End Store.

(** ** Pending clears of the highlight *)

Section Timers.

Import Rev2.

(** X11. In every reachable state each pending clear of the highlight is
    due later than the clock and at most two seconds later, and whenever a
    pin is highlighted a clear is pending.  So a highlight never stays for
    good: once two seconds pass, whatever happened before, no pin is
    highlighted and no clear is pending. *)
Theorem highlight_always_has_a_pending_clear (s : State) :
  reachable s ->
  (forall t, t ∈ timers s ->
             (clock s < t)%N /\ (t <= clock s + HIGHLIGHT_DELAY)%N)
  /\ (highlightedId s <> None -> timers s <> [])
  /\ (forall d, (HIGHLIGHT_DELAY <= d)%N ->
                highlightedId (step (Elapse d) s) = None
                /\ timers (step (Elapse d) s) = []).
Proof.
  intros Hs.
  assert (Hinv : (forall t, t ∈ timers s ->
                            (clock s < t)%N
                            /\ (t <= clock s + HIGHLIGHT_DELAY)%N)
                 /\ (highlightedId s <> None -> timers s <> [])).
  { induction Hs as [now|ev s [IHt IHh]] using reachable_ind.
    - split; [intros t Ht; inversion Ht|intros H; now elim H].
    - destruct (is_elapse ev) eqn:Hwait.
      + destruct ev; try discriminate. simpl. split.
        * intros t Ht. apply elapse_timers in Ht as [Ht Hlater].
          rewrite elapse_clock. destruct (IHt t Ht) as [_ Hdue].
          split; [exact Hlater|lia].
        * intros Hhigh Hnone.
          destruct (highlightedId s) as [h|] eqn:Hh;
            [|apply Hhigh, elapse_highlight_none, Hh].
          destruct (timers s) as [|t ts] eqn:Hts; [now apply IHh|].
          assert (Hin : t ∈ timers s) by (rewrite Hts; left).
          destruct (decide (t <= clock s + d)%N) as [Hdue|Hlater].
          -- apply Hhigh, (elapse_highlight_fired d s t Hin Hdue).
          -- assert (Hkept : t ∈ timers (elapse d s))
               by (apply elapse_timers; split; [exact Hin|lia]).
             rewrite Hnone in Hkept. inversion Hkept.
      + destruct (is_list_click ev) eqn:Hlist.
        * destruct ev; try discriminate. simpl.
          destruct (commentsWithText s !! i); [|split; assumption].
          simpl. split.
          -- intros u Hu. apply elem_of_app in Hu as [Hu|Hu].
             ++ apply IHt, Hu.
             ++ apply list_elem_of_singleton in Hu. subst u.
                unfold HIGHLIGHT_DELAY. lia.
          -- intros _ Hnil. apply app_eq_nil in Hnil as [_ Hnil].
             discriminate.
        * destruct (step_keeps_highlight ev s Hlist Hwait) as (-> & -> & ->).
          split; assumption. }
  destruct Hinv as [Ht Hh]. split; [exact Ht|]. split; [exact Hh|].
  intros d Hd. simpl. split.
  - destruct (highlightedId s) as [h|] eqn:Hhigh;
      [|apply elapse_highlight_none, Hhigh].
    destruct (timers s) as [|t ts] eqn:Hts; [now elim Hh|].
    assert (Hin : t ∈ timers s) by (rewrite Hts; left).
    apply (elapse_highlight_fired d s t Hin).
    destruct (Ht t) as [_ Hdue]; [left|]. lia.
  - apply elem_of_nil_inv. intros t Hin.
    apply elapse_timers in Hin as [Hin Hlater].
    destruct (Ht t Hin) as [_ Hdue]. lia.
Qed.

(** The theorem at the state in which entry 1 and, a second and a half
    later, entry 2 have been selected. *)
Lemma highlight_always_has_a_pending_clear_witness :
  reachable (step (ListClick 1) first_entry_selected)
  /\ highlightedId (step (ListClick 1) first_entry_selected) = Some 2
  /\ highlightedId
       (step (Elapse 2000) (step (ListClick 1) first_entry_selected))
     = None.
Proof.
  assert (Hs : reachable (step (ListClick 1) first_entry_selected))
    by (apply reachable_step, reachable_run, reachable_run, reachable_run,
          reachable_initial).
  split; [exact Hs|]. split; [vm_compute; reflexivity|].
  destruct (highlight_always_has_a_pending_clear _ Hs) as (_ & _ & Hidle).
  apply (Hidle 2000%N). discriminate.
Defined.

(** X13. A drag does not disarm the next click: with the switch on and the
    image mounted, a gesture with a move of more than 5 units followed by a
    plain gesture creates exactly one pin, the pin of the second click. *)
Theorem click_after_drag_creates_one_pin
    (s : State) (rect : DOMRect.t) (press1 click1 press2 click2 : MouseEvent.t)
    (moves1 moves2 : list MouseEvent.t) :
  annotationMode s = true ->
  imageRef s = Some rect ->
  existsb (exceeds press1) moves1 = true ->
  existsb (exceeds press2) moves2 = false ->
  annotations
    (run (gesture press1 moves1 click1 ++ gesture press2 moves2 click2) s)
  = annotations s
    ++ [newAnnotation (length (annotations s)) click2 rect (clock s)].
Proof.
  intros Hon Himg Hdrag Hplain. rewrite run_app.
  rewrite (gesture_mounted press1 click1 moves1 rect s Himg), Hdrag, Hon.
  simpl andb. cbv iota.
  rewrite (gesture_mounted press2 click2 moves2 rect (pointer_released s))
    by exact Himg.
  simpl annotationMode. rewrite Hon, Hplain. reflexivity.
Qed.

(** The theorem at a drag of 40 units followed by the sample click. *)
Lemma click_after_drag_creates_one_pin_witness :
  annotations
    (run (gesture sample_click [MouseEvent.mk 200 90] (MouseEvent.mk 200 90)
          ++ gesture sample_click [] sample_click) mounted)
  = [Annotation.mk 1 30%float 40%float "" 1000%N].
Proof.
  apply (click_after_drag_creates_one_pin mounted sample_rect
           sample_click (MouseEvent.mk 200 90) sample_click sample_click
           [MouseEvent.mk 200 90] [] eq_refl eq_refl eq_refl eq_refl).
Defined.

End Timers.

(** ** The modal of the first revision *)

Section Modal.



End Modal.
